(** * Stroke lesion segmentation benchmark: scores, prediction container,
      cross-validation and the reference estimator's thresholding.

    Shallow embedding of [problem.py] and of
    [submissions/deep_learn/estimator.py].

    Numbers are modelled as exact rationals [Q]; an array element that may
    hold the float [nan] is a [num := option Q] with [None] for [nan].
    An n-dimensional numpy array is a record holding its shape and its
    elements flattened in row-major (C) order.  A Python call that raises
    returns [None] (or an explicit error value where the kind of error
    matters). *)

From Stdlib Require Import String Arith ZArith QArith Qabs Qround Lia Lqa List Bool Permutation.
Import ListNotations.
Open Scope Q_scope.

(* ------------------------------------------------------------------ *)
(** ** Data model *)

(** A float element of an array: [None] is [nan]. *)
Abbreviation num := (option Q).

(** numpy array: shape and row-major elements. *)
Record ndarray (A : Type) := mk_ndarray { shape : list nat; data : list A }.
Arguments mk_ndarray {A} _ _.
Arguments shape {A} _.
Arguments data {A} _.

(** numpy truthiness of an element: nonzero. *)
Definition nz (x : Q) : bool := negb (Qeq_bool x 0).

(** [np.sum] over the elements of a volume. *)
Definition np_sum (v : list Q) : Q := fold_right Qplus 0 v.

(** [np.any]. *)
Definition np_any (v : list Q) : bool := existsb nz v.

(** [np.mean]: [nan] on an empty array. *)
Definition np_mean (v : list Q) : num :=
  match v with
  | [] => None
  | _ => Some (np_sum v / inject_Z (Z.of_nat (length v)))
  end.

(** [np.logical_and] of two same-shaped arrays. *)
Definition logical_and (a b : list Q) : list bool :=
  map (fun p => nz (fst p) && nz (snd p)) (combine a b).

(* ------------------------------------------------------------------ *)
(** ** Scores (problem.py, lines 22-125) *)

(** [check_mask]: [assert np.all(np.isin(mask, [0, 1]))]; [true] when the
    assertion holds, [false] when it raises [AssertionError]. *)
Definition check_mask (mask : list Q) : bool :=
  forallb (fun x => Qeq_bool x 0 || Qeq_bool x 1) mask.

(** [DiceCoeff._dice_coeff]. *)
Definition dice_coeff (y_true_mask y_pred_mask : list Q) : Q :=
  if negb (np_any y_pred_mask) && negb (np_any y_true_mask) then 1
  else np_sum (map (fun b => if b : bool then 1 * 2 else 0 * 2)
                   (logical_and y_pred_mask y_true_mask)) /
       (np_sum y_pred_mask + np_sum y_true_mask).

(** [DiceCoeff.__call__]: both masks checked, then [_dice_coeff]. *)
Definition DiceCoeff (y_true_mask y_pred_mask : list Q) : option Q :=
  if check_mask y_true_mask then
    if check_mask y_pred_mask then Some (dice_coeff y_true_mask y_pred_mask)
    else None
  else None.

(** sklearn's [precision_score] for binary labels with [pos_label=1]:
    true positives over predicted positives, [0.0] (with a warning) when
    nothing is predicted positive ([zero_division="warn"]). *)
Definition precision_score (y_true y_pred : list Q) : Q :=
  let pairs := combine y_true y_pred in
  let tp := length (filter (fun p => Qeq_bool (fst p) 1 && Qeq_bool (snd p) 1) pairs) in
  let fp := length (filter (fun p => Qeq_bool (fst p) 0 && Qeq_bool (snd p) 1) pairs) in
  if Nat.eqb (tp + fp) 0 then 0
  else inject_Z (Z.of_nat tp) / inject_Z (Z.of_nat (tp + fp)).

(** [Precision.__call__]. *)
Definition Precision (y_true_mask y_pred_mask : list Q) : option Q :=
  if check_mask y_true_mask then
    if check_mask y_pred_mask then
      if Qeq_bool (np_sum y_pred_mask) 0 && negb (Qeq_bool (np_sum y_true_mask) 0)
      then Some 0
      else Some (precision_score y_true_mask y_pred_mask)
    else None
  else None.

(** sklearn's [recall_score] for binary labels with [pos_label=1]:
    true positives over actual positives, [0.0] (with a warning) when the
    truth has no positive ([zero_division="warn"]). *)
Definition recall_score (y_true y_pred : list Q) : Q :=
  let pairs := combine y_true y_pred in
  let tp := length (filter (fun p => Qeq_bool (fst p) 1 && Qeq_bool (snd p) 1) pairs) in
  let fn := length (filter (fun p => Qeq_bool (fst p) 1 && Qeq_bool (snd p) 0) pairs) in
  if Nat.eqb (tp + fn) 0 then 0
  else inject_Z (Z.of_nat tp) / inject_Z (Z.of_nat (tp + fn)).

(** [Recall.__call__]. *)
Definition Recall (y_true_mask y_pred_mask : list Q) : option Q :=
  if check_mask y_true_mask then
    if check_mask y_pred_mask then Some (recall_score y_true_mask y_pred_mask)
    else None
  else None.

(** [AbsoluteVolumeDifference.__call__]:
    [np.abs(np.mean(y_true_mask) - np.mean(y_pred_mask))]. *)
Definition AbsoluteVolumeDifference (y_true_mask y_pred_mask : list Q)
  : option num :=
  if check_mask y_true_mask then
    if check_mask y_pred_mask then
      Some (match np_mean y_true_mask, np_mean y_pred_mask with
            | Some a, Some b => Some (Qabs (a - b))
            | _, _ => None
            end)
    else None
  else None.

(** Number of positive voxels of a volume, and of the voxels positive in
    both of two volumes. *)
Definition npos (v : list Q) : nat := length (filter nz v).
Definition ninter (a b : list Q) : nat :=
  length (filter (fun p => nz (fst p) && nz (snd p)) (combine a b)).

Definition Qnat (n : nat) : Q := inject_Z (Z.of_nat n).

(* ------------------------------------------------------------------ *)
(** ** Prediction container [_MultiClass3d] (problem.py, lines 129-213) *)

(** Exceptions the container code can raise. *)
Inductive py_error :=
  (** [ValueError('Wrong y_pred dimensions: y_pred should be 4D, of size:
      (n_samples x x_len x y_len x z_len) instead its shape is ...')] *)
  | ValueError_rank (n_samples x_len y_len z_len : nat) (actual : list nat)
  (** [ValueError('Wrong y_pred dimensions: y_pred should be
      x_len x y_len x z_len instead its shape is ...')] *)
  | ValueError_dims (x_len y_len z_len : nat) (actual : list nat)
  (** [ValueError('Missing init argument: y_pred, y_true, or n_samples')] *)
  | ValueError_missing
  (** [TypeError('len() of unsized object')] *)
  | TypeError_unsized
  (** [np.array] of arrays of different shapes *)
  | ValueError_inhomogeneous
  (** [IndexError] from indexing a list or an array out of range *)
  | IndexError
  (** sklearn's [ValueError]: the resulting train set will be empty *)
  | ValueError_empty_train.

Inductive result (A : Type) := Ok (a : A) | Raise (e : py_error).
Arguments Ok {A} _.
Arguments Raise {A} _.

Record MultiClass3d := mk_MultiClass3d {
  x_len : nat; y_len : nat; z_len : nat;
  label_names : list nat;
  y_pred : ndarray num }.

(** Number of elements of an array of the given shape. *)
Definition prod (s : list nat) : nat := fold_right Nat.mul 1%nat s.

(** [np.empty(shape, dtype=float)] followed by [.fill(np.nan)]. *)
Definition np_full_nan (s : list nat) : ndarray num :=
  mk_ndarray s (repeat None (prod s)).

(** [self.n_samples], the base-class property [len(self.y_pred)]
    (rampwf's [BasePrediction.n_samples]); [len] of a 0-d array raises
    [TypeError]. *)
Definition BasePrediction_n_samples (a : ndarray num) : result nat :=
  match shape a with
  | [] => Raise TypeError_unsized
  | n :: _ => Ok n
  end.

(** [check_y_pred_dimensions]; [None] when it returns normally.  The
    first error message formats [self.n_samples] before raising. *)
Definition check_y_pred_dimensions (x y z : nat) (a : ndarray num)
  : option py_error :=
  if negb (Nat.eqb (length (shape a)) 4) then
    match BasePrediction_n_samples a with
    | Raise e => Some e
    | Ok n => Some (ValueError_rank n x y z (shape a))
    end
  else if list_eq_dec Nat.eq_dec (tl (shape a)) [x; y; z] then None
  else Some (ValueError_dims x y z (shape a)).

(** [_MultiClass3d.__init__]; [np.array(...)] of an array is a copy, the
    identity here. *)
Definition MultiClass3d_init (x y z : nat) (labels : list nat)
    (y_pred_arg y_true_arg : option (ndarray num)) (n_samples : option nat)
  : result MultiClass3d :=
  let arr :=
    match y_pred_arg, y_true_arg, n_samples with
    | Some p, _, _ => Ok p
    | None, Some t, _ => Ok t
    | None, None, Some n => Ok (np_full_nan [n; x; y; z])
    | None, None, None => Raise ValueError_missing
    end in
  match arr with
  | Raise e => Raise e
  | Ok a =>
      match check_y_pred_dimensions x y z a with
      | Some e => Raise e
      | None => Ok (mk_MultiClass3d x y z labels a)
      end
  end.

(** [np.nanmean] of the entries along one axis position: mean of the
    non-[nan] entries, [nan] when there are none. *)
Definition nanmean (xs : list num) : num :=
  let vals := flat_map (fun v => match v with Some q => [q] | None => [] end) xs in
  match vals with
  | [] => None
  | _ => Some (np_sum vals / Qnat (length vals))
  end.

(** The entries at flat position [i] of each stacked array. *)
Definition column (ds : list (list num)) (i : nat) : list num :=
  map (fun d => nth i d None) ds.

(** [np.nanmean(stack, axis=0)] where the stacked arrays have shape [s]. *)
Definition nanmean_axis0 (s : list nat) (ds : list (list num)) : ndarray num :=
  mk_ndarray s (map (fun i => nanmean (column ds i)) (seq 0 (prod s))).

(** [np.array([...])] of a list of arrays: the stacked shape and the
    arrays' elements; [np.array([])] has shape [(0,)]. *)
Definition np_array_stack (arrs : list (ndarray num))
  : result (list nat * list (list num)) :=
  match arrs with
  | [] => Ok ([0%nat], [])
  | a :: rest =>
      if forallb (fun b => if list_eq_dec Nat.eq_dec (shape b) (shape a)
                           then true else false) rest
      then Ok (length arrs :: shape a, map data arrs)
      else Raise ValueError_inhomogeneous
  end.

(** [[predictions_list[i] for i in index_list]], [index_list] defaulting
    to [range(len(predictions_list))]. *)
Fixpoint select_by (preds : list MultiClass3d) (il : list nat)
  : option (list MultiClass3d) :=
  match il with
  | [] => Some []
  | i :: il' =>
      match nth_error preds i, select_by preds il' with
      | Some p, Some ps => Some (p :: ps)
      | _, _ => None
      end
  end.

Definition select (preds : list MultiClass3d) (index_list : option (list nat))
  : option (list MultiClass3d) :=
  match index_list with
  | None => Some preds
  | Some il => select_by preds il
  end.

(** Modelled from the spec: the base-class [combine] that
    [_MultiClass3d.combine] calls through [super()] (rampwf's
    [BasePrediction.combine], not part of this repository's sources):
    "averages per-voxel predictions across whichever containers cover a
    given sample index", i.e. [np.nanmean] of the stacked [y_pred]s along
    the container axis, the result wrapped by [cls(y_pred=y_comb)]; the
    class [cls] carries the fixed [x_len, y_len, z_len, label_names]. *)
Definition base_combine (x y z : nat) (labels : list nat)
    (predictions_list : list MultiClass3d) (index_list : option (list nat))
  : result MultiClass3d :=
  match select predictions_list index_list with
  | None => Raise IndexError
  | Some sel =>
      match np_array_stack (map y_pred sel) with
      | Raise e => Raise e
      | Ok (sh, ds) =>
          MultiClass3d_init x y z labels (Some (nanmean_axis0 (tl sh) ds)) None None
      end
  end.

(** [y_pred[y_pred < 0.5] = 0.0]; comparisons with [nan] are false. *)
Definition lt_half_to_zero (v : num) : num :=
  match v with
  | Some q => if negb (Qle_bool (1#2) q) then Some 0 else v
  | None => None
  end.

(** [y_pred[y_pred >= 0.5] = 1.0]. *)
Definition ge_half_to_one (v : num) : num :=
  match v with
  | Some q => if Qle_bool (1#2) q then Some 1 else v
  | None => None
  end.

(** [_MultiClass3d.combine]: the base combine, then the two masked
    assignments, in this order, over every element. *)
Definition MultiClass3d_combine (x y z : nat) (labels : list nat)
    (predictions_list : list MultiClass3d) (index_list : option (list nat))
  : result MultiClass3d :=
  match base_combine x y z labels predictions_list index_list with
  | Raise e => Raise e
  | Ok c =>
      let a := y_pred c in
      let d1 := map lt_half_to_zero (data a) in
      let d2 := map ge_half_to_one d1 in
      Ok (mk_MultiClass3d (x_len c) (y_len c) (z_len c) (label_names c)
                          (mk_ndarray (shape a) d2))
  end.

(** [_MultiClass3d.valid_indexes]: [~np.isnan(self.y_pred)] for a 4-D
    [y_pred]; [None] stands for the [ValueError] otherwise. *)
Definition valid_indexes (c : MultiClass3d) : option (ndarray bool) :=
  let a := y_pred c in
  if Nat.eqb (length (shape a)) 4
  then Some (mk_ndarray (shape a) (map (fun v => match v with Some _ => true | None => false end) (data a)))
  else None.

(* ------------------------------------------------------------------ *)
(** ** Cross-validation [get_cv] (problem.py, lines 234-243) *)

Definition RANDOM_STATE : Z := 42.

(** [os.getenv('RAMP_TEST_MODE', 0)] used as a condition: the default [0]
    is falsy, a string is truthy when it is not empty. *)
Definition test_mode (ramp_test_mode : option string) : bool :=
  match ramp_test_mode with
  | None => false
  | Some s => negb (String.eqb s EmptyString)
  end.

Record ShuffleSplit := mk_ShuffleSplit {
  n_splits : nat; test_size : Q; random_state : Z }.

(** The splitter [get_cv] builds. *)
Definition get_cv_splitter (ramp_test_mode : option string) : ShuffleSplit :=
  let n_splits := if test_mode ramp_test_mode then 1%nat else 8%nat in
  mk_ShuffleSplit n_splits (2#10) RANDOM_STATE.

(** sklearn's [_validate_shuffle_split] for a float [test_size] and no
    [train_size]: [n_test = ceil(test_size * n_samples)],
    [n_train = n_samples - n_test], and an error when [n_train == 0]. *)
Definition validate_shuffle_split (n_samples : nat) (test_size : Q)
  : result (nat * nat) :=
  let n_test := Z.to_nat (Qceiling (test_size * Qnat n_samples)) in
  let n_train := (n_samples - n_test)%nat in
  if Nat.eqb n_train 0 then Raise ValueError_empty_train
  else Ok (n_train, n_test).

Section Splits.

(** The random draws of sklearn's [ShuffleSplit]: [permutation seed i n]
    is the [i]-th [rng.permutation(n)] of [RandomState(seed)]. *)
Variable permutation : Z -> nat -> nat -> list nat.

(** [ShuffleSplit.split]: for each of the [n_splits] draws,
    [ind_test = permutation[:n_test]] and
    [ind_train = permutation[n_test:(n_test + n_train)]]. *)
Definition ShuffleSplit_split (cv : ShuffleSplit) (n_samples : nat)
  : result (list (list nat * list nat)) :=
  match validate_shuffle_split n_samples (test_size cv) with
  | Raise e => Raise e
  | Ok (n_train, n_test) =>
      Ok (map (fun i =>
                 let perm := permutation (random_state cv) i n_samples in
                 (firstn n_train (skipn n_test perm), firstn n_test perm))
              (seq 0 (n_splits cv)))
  end.

(** [get_cv(X, y)]: [cv.split(X, y)]; only the number of samples of [X]
    is used. *)
Definition get_cv {A B : Type} (ramp_test_mode : option string)
    (X : list A) (y : B) : result (list (list nat * list nat)) :=
  ShuffleSplit_split (get_cv_splitter ramp_test_mode) (length X).

End Splits.

(* ------------------------------------------------------------------ *)
(** ** Reference estimator's [predict] (estimator.py, lines 189-199) *)

(** [(y_pred > 0.5) * 1] on one element; [nan > 0.5] is [False]. *)
Definition gt_half_int (v : num) : Z :=
  match v with
  | Some q => if Qle_bool q (1#2) then 0%Z else 1%Z
  | None => 0%Z
  end.

(** [a[..., 0]]: index 0 of the last axis, which is removed; an
    [IndexError] for a 0-d array or an empty last axis. *)
Definition index_last0 {A : Type} (dflt : A) (a : ndarray A) : option (ndarray A) :=
  match rev (shape a) with
  | [] => None
  | c :: rs =>
      if Nat.eqb c 0 then None
      else Some (mk_ndarray (rev rs)
                   (map (fun i => nth (i * c) (data a) dflt)
                        (seq 0 (length (data a) / c))))
  end.

(** [KerasSegmentationClassifier.predict], from the network's output
    [y_pred = self.model.predict(gen_test, batch_size=1)]. *)
Definition predict (y_out : ndarray num) : option (ndarray Z) :=
  let y_pred := mk_ndarray (shape y_out) (map gt_half_int (data y_out)) in
  index_last0 0%Z y_pred.

(* ------------------------------------------------------------------ *)
(** ** The reference estimator's training side (estimator.py) *)

(** Errors raised by the estimator and the data reader. *)
Inductive est_error :=
  (** [TypeError("object of type 'NoneType' has no len()")] *)
  | TypeError_len_None
  (** [ValueError('range() arg 3 must not be zero')] *)
  | ValueError_range_step
  (** [ValueError] of an assignment between arrays of different shapes *)
  | ValueError_broadcast
  (** the [AssertionError] of [_read_data] *)
  | AssertionError_labels.

Inductive outcome (A : Type) := Done (a : A) | Throw (e : est_error).
Arguments Done {A} _.
Arguments Throw {A} _.

(** [K.flatten(y_true) * K.flatten(y_pred)]: element-wise product, a
    length-1 operand broadcast; [None] for incompatible lengths. *)
Definition flat_mul (a b : list Q) : option (list Q) :=
  if Nat.eqb (length a) (length b)
  then Some (map (fun p => fst p * snd p) (combine a b))
  else match a, b with
       | [u], _ => Some (map (fun v => u * v) b)
       | _, [v] => Some (map (fun u => u * v) a)
       | _, _ => None
       end.

(** [_dice_coefficient(y_true, y_pred, smooth)], the network's metric. *)
Definition dice_coefficient (y_true y_pred : list Q) (smooth : Q) : option Q :=
  match flat_mul y_true y_pred with
  | None => None
  | Some inter =>
      Some ((2 * np_sum inter + smooth) / (np_sum y_true + np_sum y_pred + smooth))
  end.

(** [_dice_coefficient_loss], with the default [smooth=1.]. *)
Definition dice_coefficient_loss (y_true y_pred : list Q) : option Q :=
  match dice_coefficient y_true y_pred 1 with
  | None => None
  | Some d => Some (- d)
  end.


(** rampwf's [get_nb_minibatches(nb_samples, batch_size)] (from
    [rampwf.workflows.image_classifier]): [nb_samples // batch_size] plus
    one for a partial last batch. *)
Definition get_nb_minibatches (nb_samples batch_size : nat) : nat :=
  (nb_samples / batch_size +
   (if Nat.ltb 0 (nb_samples mod batch_size) then 1 else 0))%nat.



Section TrainGenerator.

(** [np.random.shuffle(indices)] in place: [shuffle k l] is the order the
    [k]-th call of the generator's shuffle leaves [l] in. *)
Variable shuffle : nat -> list nat -> list nat.



End TrainGenerator.

(** numpy's rule for assigning an array of shape [src] into a slot of
    shape [dst], both given last axis first: axes aligned on the right,
    each axis of [src] equal to that of [dst] or of length 1, extra
    leading axes of [src] of length 1. *)
Fixpoint broadcast_rev (src dst : list nat) : bool :=
  match src, dst with
  | [], _ => true
  | a :: s, [] => Nat.eqb a 1 && broadcast_rev s []
  | a :: s, b :: d => (Nat.eqb a b || Nat.eqb a 1) && broadcast_rev s d
  end.

Definition can_assign (src dst : list nat) : bool := broadcast_rev (rev src) (rev dst).

(** [X[i] = x[:, :, :, np.newaxis]] (and [Y[i] = y[:, :, :, np.newaxis]])
    in the generators, for a volume [x] of shape [(a, b, c)] and a buffer
    [X] of shape [(batch_size, xdim, ydim, zdim, 1)]; [None] when the
    assignment succeeds. *)
Definition fill_buffer_row (image_size : nat * nat * nat) (vol_shape : nat * nat * nat)
  : option est_error :=
  let '(xd, yd, zd) := image_size in
  let '(a, b, c) := vol_shape in
  if can_assign [a; b; c; 1%nat] [xd; yd; zd; 1%nat] then None
  else Some ValueError_broadcast.

(** [KerasSegmentationClassifier.__init__]: [self.batch_size = 6]. *)
Definition estimator_batch_size : nat := 6.

(** What [KerasSegmentationClassifier.fit] hands to [self.model.fit],
    from [nb = len(X)] and the shuffled [np.arange(nb)]. *)
Record FitPlan := mk_FitPlan {
  ind_train : list nat; ind_valid : list nat;
  steps_per_epoch : nat; validation_steps : nat }.

(** [fit]: [nb_train = int(nb * 0.9)] (equal to [9 * nb // 10] for every
    [nb] below [200000]), [ind_train = indices[0:nb_train]],
    [ind_valid = indices[nb_train:]] and the step counts of the two
    generators. *)
Definition fit_plan (nb : nat) (indices : list nat) : FitPlan :=
  let nb_train := (9 * nb / 10)%nat in
  let nb_valid := (nb - nb_train)%nat in
  mk_FitPlan (firstn nb_train indices) (skipn nb_train indices)
             (get_nb_minibatches nb_train estimator_batch_size)
             (get_nb_minibatches nb_valid estimator_batch_size).

(** [get_estimator]: [image_size = (197, 233, 189)]. *)
Definition estimator_image_size : nat * nat * nat := (197, 233, 189)%nat.

(** Shape of [self.model.predict] on [N] images: the last [Conv3D] has one
    filter and ['same'] padding, so [(N, xdim, ydim, zdim, 1)]. *)
Definition model_output_shape (N : nat) (image_size : nat * nat * nat) : list nat :=
  let '(xd, yd, zd) := image_size in [N; xd; yd; zd; 1%nat].

(** [Predictions = make_3dmulticlass(193, 229, 193, [0, 1])]: the
    container class [_MultiClass3d] with these keywords bound. *)
Definition Predictions (y_pred_arg y_true_arg : option (ndarray num))
    (n_samples : option nat) : result MultiClass3d :=
  MultiClass3d_init 193 229 193 [0; 1]%nat y_pred_arg y_true_arg n_samples.

(** [np.array] of the integer labels returned by [predict], as floats. *)
Definition as_float (a : ndarray Z) : ndarray num :=
  mk_ndarray (shape a) (map (fun z => Some (inject_Z z)) (data a)).

(* ------------------------------------------------------------------ *)
(** ** Reading the data (problem.py, lines 246-287) *)

Definition DATA_HOME : string := "data"%string.

(** [os.path.join(a, b)] on POSIX: [b] when it is absolute, otherwise
    [a] and [b] with a ['/'] between them unless [a] is empty or already
    ends with one. *)
Definition path_join (a b : string) : string :=
  if String.prefix "/"%string b then b
  else if String.eqb a EmptyString ||
          String.eqb (substring (String.length a - 1) 1 a) "/"%string
  then String.append a b
  else String.append a (String.append "/"%string b).

(** Storing a path into [np.empty(n, dtype='<U128')]: numpy keeps its
    first 128 characters (paths as ASCII strings). *)
Definition to_U128 (p : string) : string := substring 0 128 p.

Section ReadData.

(** [os.listdir] of an existing directory. *)
Variable listdir : string -> list string.
(** [load_img(path).get_fdata()], flattened; the truth volumes have the
    configured shape [(x_len, y_len, z_len)]. *)
Variable load_truth : string -> list Q.
(** What [np.empty((n_samples, x_len, y_len, z_len))] leaves in row
    [idx] before it is assigned. *)
Variable uninit : nat -> list Q.

(** The subject directories used: in test mode only the first three. *)
Definition subject_dirs (ramp_test_mode : option string) (dir_data : string)
  : list string :=
  let l := listdir dir_data in
  if test_mode ramp_test_mode then firstn 3 l else l.

(** The loop of [_read_data] from index [idx] on: [y[idx, :] = ...]
    followed by [assert np.all(np.in1d(y, [0, 1]))] on the whole of [y]. *)
Fixpoint read_rows (dir_data : string) (subjs : list string) (idx : nat)
    (y : list (list Q)) : outcome (list (list Q)) :=
  match subjs with
  | [] => Done y
  | subj :: rest =>
      let vol := load_truth (path_join (path_join dir_data subj) "truth.nii.gz"%string) in
      let y' := firstn idx y ++ vol :: skipn (S idx) y in
      if check_mask (concat y') then read_rows dir_data rest (S idx) y'
      else Throw AssertionError_labels
  end.

(** [_read_data(path, dir_name)]: the T1 image paths and the truth
    volumes of the subjects. *)
Definition read_data (ramp_test_mode : option string) (path dir_name : string)
  : outcome (list string * list (list Q)) :=
  let dir_data := path_join path dir_name in
  let subjs := subject_dirs ramp_test_mode dir_data in
  let X := map (fun subj => to_U128 (path_join (path_join dir_data subj)
                                                "T1.nii.gz"%string)) subjs in
  match read_rows dir_data subjs 0 (map uninit (seq 0 (length subjs))) with
  | Throw e => Throw e
  | Done y => Done (X, y)
  end.

(** [get_train_data(path)] and [get_test_data(path)]. *)
Definition get_train_data (ramp_test_mode : option string) (path : string)
  : outcome (list string * list (list Q)) :=
  read_data ramp_test_mode (path_join path DATA_HOME) "train"%string.

Definition get_test_data (ramp_test_mode : option string) (path : string)
  : outcome (list string * list (list Q)) :=
  read_data ramp_test_mode (path_join path DATA_HOME) "test"%string.

End ReadData.

(* ================================================================== *)
(** * Properties *)

(* ------------------------------------------------------------------ *)
(** ** Counting lemmas for binary volumes *)

Lemma Qnat_add (a b : nat) : Qnat (a + b) == Qnat a + Qnat b.
Proof. unfold Qnat. rewrite Nat2Z.inj_add, inject_Z_plus. reflexivity. Qed.

Lemma Qnat_S (a : nat) : Qnat (S a) == 1 + Qnat a.
Proof. replace (S a) with (1 + a)%nat by lia. apply Qnat_add. Qed.

Lemma Qnat_le (a b : nat) : (a <= b)%nat -> Qnat a <= Qnat b.
Proof. intros H. unfold Qnat, Qle; simpl. lia. Qed.

Lemma Qnat_nonneg (a : nat) : 0 <= Qnat a.
Proof. unfold Qnat, Qle; simpl. lia. Qed.

Lemma Qnat_pos (a : nat) : (0 < a)%nat -> 0 < Qnat a.
Proof. intros H. unfold Qnat, Qlt; simpl. lia. Qed.

Lemma check_mask_cons (x : Q) (v : list Q) :
  check_mask (x :: v) = true <-> ((x == 0 \/ x == 1) /\ check_mask v = true).
Proof.
  unfold check_mask; simpl. rewrite andb_true_iff, orb_true_iff.
  rewrite !Qeq_bool_iff. tauto.
Qed.

Lemma check_mask_Forall (v : list Q) :
  check_mask v = true <-> Forall (fun x => x == 0 \/ x == 1) v.
Proof.
  induction v as [| x v IH].
  - split; [constructor | reflexivity].
  - rewrite check_mask_cons, Forall_cons_iff, IH. tauto.
Qed.

Lemma nz_false (x : Q) : nz x = false <-> x == 0.
Proof.
  unfold nz. rewrite negb_false_iff. apply Qeq_bool_iff.
Qed.

(** On a binary volume [np.sum] counts the positive voxels. *)
Lemma np_sum_binary (v : list Q) :
  check_mask v = true -> np_sum v == Qnat (npos v).
Proof.
  induction v as [| x v IH]; intros Hc.
  - reflexivity.
  - apply check_mask_cons in Hc as [Hx Hv].
    unfold npos; simpl. destruct (nz x) eqn:Enz.
    + destruct Hx as [Hx | Hx].
      * apply nz_false in Hx. congruence.
      * simpl. rewrite Qnat_S. rewrite Hx. fold (npos v). rewrite <- IH by exact Hv.
        reflexivity.
    + apply nz_false in Enz. rewrite Enz. fold (npos v). rewrite <- IH by exact Hv.
      unfold np_sum. simpl. ring.
Qed.

(** [np.any] holds exactly when some voxel is positive. *)
Lemma np_any_npos (v : list Q) : np_any v = negb (Nat.eqb (npos v) 0).
Proof.
  induction v as [| x v IH]; [reflexivity |].
  unfold np_any, npos in *; simpl. destruct (nz x); simpl; [reflexivity | exact IH].
Qed.

(** The doubled sum of [np.logical_and] counts the common positives. *)
Lemma logical_and_sum (a b : list Q) :
  np_sum (map (fun b => if b : bool then 1 * 2 else 0 * 2) (logical_and a b))
  == 2 * Qnat (ninter a b).
Proof.
  unfold logical_and, ninter.
  induction (combine a b) as [| [x y] l IH]; simpl.
  - reflexivity.
  - unfold np_sum in *; simpl. destruct (nz x && nz y); simpl.
    + rewrite IH, Qnat_S. ring.
    + rewrite IH. ring.
Qed.

Lemma ninter_comm (a b : list Q) : ninter a b = ninter b a.
Proof.
  revert b; induction a as [| x a IH]; intros [| y b]; try reflexivity.
  unfold ninter in *; simpl. rewrite (andb_comm (nz y)).
  destruct (nz x && nz y); simpl; rewrite IH; reflexivity.
Qed.

Lemma ninter_le_l (a b : list Q) : (ninter a b <= npos a)%nat.
Proof.
  unfold ninter, npos.
  revert b; induction a as [| x a IH]; intros [| y b]; simpl; try lia.
  destruct (nz x), (nz y); simpl; specialize (IH b); lia.
Qed.

Lemma ninter_diag (a : list Q) : ninter a a = npos a.
Proof.
  induction a as [| x a IH]; [reflexivity |].
  unfold ninter, npos in *; simpl. destruct (nz x); simpl; lia.
Qed.

Lemma Qnat_eq0 (a : nat) : Qnat a == 0 <-> a = 0%nat.
Proof. unfold Qnat, Qeq; simpl. lia. Qed.

Lemma np_sum_zero_binary (v : list Q) :
  check_mask v = true -> Qeq_bool (np_sum v) 0 = Nat.eqb (npos v) 0.
Proof.
  intros Hc. apply eq_true_iff_eq.
  rewrite Qeq_bool_iff, Nat.eqb_eq, (np_sum_binary v Hc). apply Qnat_eq0.
Qed.

Lemma check_mask_zeros (n : nat) : check_mask (repeat 0 n) = true.
Proof. induction n as [| n IH]; [reflexivity | exact IH]. Qed.

Lemma npos_zeros (n : nat) : npos (repeat 0 n) = 0%nat.
Proof. induction n as [| n IH]; [reflexivity | exact IH]. Qed.

(** [_dice_coeff] on binary masks, as counts of positive voxels. *)
Lemma dice_coeff_counts (A B : list Q) :
  check_mask A = true -> check_mask B = true ->
  dice_coeff A B ==
    (if Nat.eqb (npos A) 0 && Nat.eqb (npos B) 0 then 1
     else 2 * Qnat (ninter A B) / (Qnat (npos A) + Qnat (npos B))).
Proof.
  intros HA HB. unfold dice_coeff. rewrite !np_any_npos, !negb_involutive.
  rewrite (andb_comm (Nat.eqb (npos B) 0)).
  destruct (Nat.eqb (npos A) 0 && Nat.eqb (npos B) 0); [reflexivity |].
  rewrite logical_and_sum, (np_sum_binary A HA), (np_sum_binary B HB), ninter_comm.
  rewrite (Qplus_comm (Qnat (npos B))). reflexivity.
Qed.

Lemma dice_ratio_bounds (i a b : nat) :
  (i <= a)%nat -> (i <= b)%nat -> (0 < a + b)%nat ->
  0 <= 2 * Qnat i / (Qnat a + Qnat b) <= 1.
Proof.
  intros Ha Hb Hab.
  assert (Hp : 0 < Qnat a + Qnat b) by (rewrite <- Qnat_add; apply Qnat_pos; exact Hab).
  split.
  - apply Qle_shift_div_l; [exact Hp |]. rewrite Qmult_0_l.
    unfold Qnat, Qle, Qmult, inject_Z; cbn [Qnum Qden]. lia.
  - apply Qle_shift_div_r; [exact Hp |]. rewrite Qmult_1_l, <- Qnat_add.
    unfold Qnat, Qle, Qmult, inject_Z; cbn [Qnum Qden]. lia.
Qed.

Lemma dice_ratio_diag (a : nat) : (0 < a)%nat -> 2 * Qnat a / (Qnat a + Qnat a) == 1.
Proof.
  intros Ha. pose proof (Qnat_pos a Ha) as Hp.
  field. intros H. rewrite <- Qnat_add in H. apply Qnat_eq0 in H. lia.
Qed.

Lemma Qabs_minus_swap (a b : Q) : Qabs (a - b) = Qabs (b - a).
Proof.
  destruct a as [an ad], b as [bn bd].
  unfold Qabs, Qminus, Qplus, Qopp; simpl. f_equal.
  - rewrite <- Z.abs_opp. f_equal. ring.
  - apply Pos.mul_comm.
Qed.

Lemma np_mean_binary (v : list Q) :
  check_mask v = true -> v <> [] ->
  exists m, np_mean v = Some m /\ m == Qnat (npos v) / Qnat (length v).
Proof.
  intros Hc Hne. destruct v as [| x v']; [congruence |].
  eexists; split; [reflexivity |]. rewrite (np_sum_binary _ Hc). reflexivity.
Qed.

(** ** C7: the mask validator *)

(** C7: [check_mask] fails (its assertion raises) exactly when some
    element of the volume lies outside [{0, 1}]; a volume holding [2]
    anywhere is rejected whatever the other voxels are, and a volume of
    only [0]s and [1]s is accepted. *)
Theorem check_mask_rejects_iff_outside_binary :
  (forall m : list Q,
     check_mask m = false <-> Exists (fun x => ~ x == 0 /\ ~ x == 1) m) /\
  (forall m1 m2 : list Q, check_mask (m1 ++ 2 :: m2) = false) /\
  (forall m : list Q, Forall (fun x => x == 0 \/ x == 1) m -> check_mask m = true).
Proof.
  assert (Hrej : forall m : list Q,
     check_mask m = false <-> Exists (fun x => ~ x == 0 /\ ~ x == 1) m).
  { intros m. rewrite <- not_true_iff_false, check_mask_Forall.
    split.
    - intros H.
      assert (HE : Exists (fun x => ~ (x == 0 \/ x == 1)) m).
      { apply neg_Forall_Exists_neg; [| exact H].
        intros x. destruct (Qeq_dec x 0), (Qeq_dec x 1); tauto. }
      revert HE. apply Exists_impl. intros x Hx. tauto.
    - intros H HF. apply Exists_exists in H as [x [Hin [H0 H1]]].
      rewrite Forall_forall in HF. destruct (HF x Hin); tauto. }
  split; [exact Hrej | split].
  - intros m1 m2. apply Hrej. apply Exists_app. right. apply Exists_cons_hd.
    split; intros H; discriminate H.
  - intros m. apply check_mask_Forall.
Qed.

Lemma check_mask_rejects_iff_outside_binary_witness :
  check_mask [0; 1; 2; 1] = false /\ check_mask [0; 1; 1] = true.
Proof.
  split.
  - apply (proj1 (proj2 check_mask_rejects_iff_outside_binary) [0; 1] [1]).
  - apply (proj2 (proj2 check_mask_rejects_iff_outside_binary)).
    repeat apply Forall_cons; [left | right | right | apply Forall_nil]; reflexivity.
Defined.

(** ** C2, C8: Dice coefficient *)

(** C2: on two same-shaped binary masks [DiceCoeff] returns [1] when
    neither mask has a positive voxel, and [2 |A∩B| / (|A| + |B|)]
    otherwise, counting positive voxels. *)
Theorem DiceCoeff_empty_or_overlap_ratio (A B : list Q) :
  check_mask A = true -> check_mask B = true -> length A = length B ->
  exists d, DiceCoeff A B = Some d /\
    d == (if Nat.eqb (npos A) 0 && Nat.eqb (npos B) 0 then 1
          else 2 * Qnat (ninter A B) / (Qnat (npos A) + Qnat (npos B))).
Proof.
  intros HA HB _. unfold DiceCoeff. rewrite HA, HB.
  eexists; split; [reflexivity |]. apply dice_coeff_counts; assumption.
Qed.

Lemma DiceCoeff_empty_or_overlap_ratio_witness :
  exists d, DiceCoeff [1; 1; 0; 0] [1; 0; 1; 0] = Some d /\ d == 2 * 1 / (2 + 2).
Proof.
  apply (DiceCoeff_empty_or_overlap_ratio [1; 1; 0; 0] [1; 0; 1; 0]);
    reflexivity.
Defined.

(** C8: for same-shaped binary masks the Dice score lies in [[0, 1]],
    the score of a mask against itself is [1] (also when it has positive
    voxels), and two all-zero masks score [1]. *)
Theorem DiceCoeff_bounded_reflexive :
  (forall A B : list Q,
     check_mask A = true -> check_mask B = true -> length A = length B ->
     exists d, DiceCoeff A B = Some d /\ 0 <= d <= 1) /\
  (forall A : list Q, check_mask A = true ->
     exists d, DiceCoeff A A = Some d /\ d == 1) /\
  (forall n : nat, DiceCoeff (repeat 0 n) (repeat 0 n) = Some 1).
Proof.
  split; [| split].
  - intros A B HA HB _. unfold DiceCoeff. rewrite HA, HB.
    eexists; split; [reflexivity |]. rewrite (dice_coeff_counts A B HA HB).
    destruct (Nat.eqb (npos A) 0) eqn:EA, (Nat.eqb (npos B) 0) eqn:EB; simpl;
      try (split; discriminate);
      apply dice_ratio_bounds;
      rewrite ?Nat.eqb_eq, ?Nat.eqb_neq in *;
      first [ apply ninter_le_l | rewrite ninter_comm; apply ninter_le_l | lia ].
  - intros A HA. unfold DiceCoeff. rewrite HA.
    eexists; split; [reflexivity |]. rewrite (dice_coeff_counts A A HA HA).
    destruct (Nat.eqb (npos A) 0) eqn:EA; simpl; [reflexivity |].
    rewrite ninter_diag. apply dice_ratio_diag. apply Nat.eqb_neq in EA. lia.
  - intros n. unfold DiceCoeff. rewrite check_mask_zeros.
    unfold dice_coeff. rewrite np_any_npos, npos_zeros. reflexivity.
Qed.

Lemma DiceCoeff_bounded_reflexive_witness :
  (exists d, DiceCoeff [1; 0] [1; 1] = Some d /\ 0 <= d <= 1) /\
  (exists d, DiceCoeff [1; 0; 1] [1; 0; 1] = Some d /\ d == 1).
Proof.
  split.
  - apply (proj1 DiceCoeff_bounded_reflexive [1; 0] [1; 1]); reflexivity.
  - apply (proj1 (proj2 DiceCoeff_bounded_reflexive) [1; 0; 1]); reflexivity.
Defined.

(** ** C6: precision *)

(** C6: on same-shaped binary masks [Precision] returns [0.0] when the
    prediction has no positive voxel and the truth has one, and otherwise
    sklearn's precision over the flattened labels. *)
Theorem Precision_no_predicted_positive (A B : list Q) :
  check_mask A = true -> check_mask B = true -> length A = length B ->
  (npos B = 0%nat -> npos A <> 0%nat -> Precision A B = Some 0) /\
  (~ (npos B = 0%nat /\ npos A <> 0%nat) ->
     Precision A B = Some (precision_score A B)).
Proof.
  intros HA HB _. unfold Precision. rewrite HA, HB.
  rewrite (np_sum_zero_binary A HA), (np_sum_zero_binary B HB).
  split.
  - intros H0 H1. apply Nat.eqb_eq in H0. apply Nat.eqb_neq in H1.
    rewrite H0, H1. reflexivity.
  - intros Hn. destruct (Nat.eqb (npos B) 0) eqn:E0, (Nat.eqb (npos A) 0) eqn:E1;
      simpl; try reflexivity.
    exfalso. apply Hn. rewrite Nat.eqb_eq in E0. rewrite Nat.eqb_neq in E1. tauto.
Qed.

Lemma Precision_no_predicted_positive_witness :
  Precision [1; 1; 0] [0; 0; 0] = Some 0 /\
  Precision [1; 1; 0] [1; 0; 1] = Some (precision_score [1; 1; 0] [1; 0; 1]).
Proof.
  split.
  - apply (proj1 (Precision_no_predicted_positive [1; 1; 0] [0; 0; 0]
                    eq_refl eq_refl eq_refl)).
    + reflexivity.
    + intros H. vm_compute in H. discriminate H.
  - apply (proj2 (Precision_no_predicted_positive [1; 1; 0] [1; 0; 1]
                    eq_refl eq_refl eq_refl)).
    intros [H _]. vm_compute in H. discriminate H.
Defined.

(** ** C9: absolute volume difference *)

(** C9: on non-empty binary volumes [AbsoluteVolumeDifference] is the
    absolute difference of the mean labels (the fractions of positive
    voxels); it is symmetric in its arguments; and it is [0] on equal
    volumes. *)
Theorem AVD_abs_mean_difference_symmetric :
  (forall A B : list Q,
     check_mask A = true -> check_mask B = true -> A <> [] -> B <> [] ->
     exists r, AbsoluteVolumeDifference A B = Some (Some r) /\
       r == Qabs (Qnat (npos A) / Qnat (length A) - Qnat (npos B) / Qnat (length B))) /\
  (forall A B : list Q,
     AbsoluteVolumeDifference A B = AbsoluteVolumeDifference B A) /\
  (forall A : list Q, check_mask A = true -> A <> [] ->
     exists r, AbsoluteVolumeDifference A A = Some (Some r) /\ r == 0).
Proof.
  split; [| split].
  - intros A B HA HB HnA HnB. unfold AbsoluteVolumeDifference. rewrite HA, HB.
    destruct (np_mean_binary A HA HnA) as [a [Ea Ha]].
    destruct (np_mean_binary B HB HnB) as [b [Eb Hb]].
    rewrite Ea, Eb. eexists; split; [reflexivity |]. rewrite Ha, Hb. reflexivity.
  - intros A B. unfold AbsoluteVolumeDifference.
    destruct (check_mask A), (check_mask B); try reflexivity.
    destruct (np_mean A), (np_mean B); try reflexivity.
    rewrite Qabs_minus_swap. reflexivity.
  - intros A HA HnA. unfold AbsoluteVolumeDifference. rewrite HA.
    destruct (np_mean_binary A HA HnA) as [a [Ea _]]. rewrite Ea.
    eexists; split; [reflexivity |]. unfold Qminus. rewrite Qplus_opp_r. reflexivity.
Qed.

Lemma AVD_abs_mean_difference_symmetric_witness :
  (exists r, AbsoluteVolumeDifference [1; 1; 0; 0] [1; 0; 0; 0] = Some (Some r) /\
     r == Qabs (Qnat 2 / Qnat 4 - Qnat 1 / Qnat 4)) /\
  (exists r, AbsoluteVolumeDifference [1; 0] [1; 0] = Some (Some r) /\ r == 0).
Proof.
  split.
  - apply (proj1 AVD_abs_mean_difference_symmetric [1; 1; 0; 0] [1; 0; 0; 0]);
      try reflexivity; discriminate.
  - apply (proj2 (proj2 AVD_abs_mean_difference_symmetric) [1; 0]);
      try reflexivity; discriminate.
Defined.

(* ------------------------------------------------------------------ *)
(** ** Combination of prediction containers *)

Lemma np_array_stack_data (arrs : list (ndarray num)) sh ds :
  np_array_stack arrs = Ok (sh, ds) -> ds = map data arrs.
Proof.
  destruct arrs as [| a rest]; simpl.
  - intros H. inversion H. reflexivity.
  - destruct (forallb _ rest); intros H; inversion H; reflexivity.
Qed.

(** A container built from an explicit [y_pred] holds that array, which
    is 4-D. *)
Lemma init_y_pred_ok x y z labels (a : ndarray num) c :
  MultiClass3d_init x y z labels (Some a) None None = Ok c ->
  y_pred c = a /\ length (shape a) = 4%nat.
Proof.
  unfold MultiClass3d_init, check_y_pred_dimensions.
  destruct (Nat.eqb (length (shape a)) 4) eqn:E; simpl.
  - destruct (list_eq_dec _ _ _); intros H; inversion H; subst.
    split; [reflexivity | apply Nat.eqb_eq; exact E].
  - destruct (BasePrediction_n_samples a); discriminate.
Qed.

(** Every container the constructor returns holds a 4-D array. *)
Lemma init_rank4 x y z labels yp yt n c :
  MultiClass3d_init x y z labels yp yt n = Ok c -> length (shape (y_pred c)) = 4%nat.
Proof.
  unfold MultiClass3d_init.
  destruct (match yp, yt, n with
            | Some p, _, _ => Ok p
            | None, Some t, _ => Ok t
            | None, None, Some n0 => Ok (np_full_nan [n0; x; y; z])
            | None, None, None => Raise ValueError_missing
            end) as [a | e]; [| discriminate].
  unfold check_y_pred_dimensions.
  destruct (Nat.eqb (length (shape a)) 4) eqn:E; simpl.
  - destruct (list_eq_dec _ _ _); intros H; inversion H; subst.
    apply Nat.eqb_eq; exact E.
  - destruct (BasePrediction_n_samples a); discriminate.
Qed.

(** The two masked assignments of [combine] on one element. *)
Definition combine_threshold (v : num) : num := ge_half_to_one (lt_half_to_zero v).

Lemma combine_threshold_lt (a : Q) : a < 1#2 -> combine_threshold (Some a) = Some 0.
Proof.
  intros Ha. unfold combine_threshold, lt_half_to_zero, ge_half_to_one.
  destruct (Qle_bool (1#2) a) eqn:E.
  - apply Qle_bool_iff in E. exfalso. apply (Qlt_not_le _ _ Ha E).
  - reflexivity.
Qed.

Lemma combine_threshold_ge (a : Q) : 1#2 <= a -> combine_threshold (Some a) = Some 1.
Proof.
  intros Ha. unfold combine_threshold, lt_half_to_zero, ge_half_to_one.
  apply Qle_bool_iff in Ha. rewrite Ha. simpl. rewrite Ha. reflexivity.
Qed.

(** The result of [_MultiClass3d.combine], element by element. *)
Lemma combine_data x y z labels preds index_list c :
  MultiClass3d_combine x y z labels preds index_list = Ok c ->
  exists sel, select preds index_list = Some sel /\
    length (shape (y_pred c)) = 4%nat /\
    data (y_pred c) =
      map (fun i => combine_threshold
                      (nanmean (column (map (fun p => data (y_pred p)) sel) i)))
          (seq 0 (prod (shape (y_pred c)))).
Proof.
  unfold MultiClass3d_combine, base_combine.
  destruct (select preds index_list) as [sel |] eqn:Es; [| discriminate].
  destruct (np_array_stack (map y_pred sel)) as [[sh ds] | e] eqn:Est; [| discriminate].
  destruct (MultiClass3d_init _ _ _ _ _ _ _) as [c0 | e] eqn:Ei; [| discriminate].
  intros H. inversion H; subst; clear H.
  apply init_y_pred_ok in Ei as [Hy Hr]. apply np_array_stack_data in Est. subst ds.
  exists sel. rewrite Hy. simpl. split; [reflexivity |]. split; [exact Hr |].
  rewrite !map_map. reflexivity.
Qed.

Lemma nth_error_map_seq {A : Type} (f : nat -> A) (n i : nat) :
  (i < n)%nat -> nth_error (map f (seq 0 n)) i = Some (f i).
Proof.
  intros H. rewrite nth_error_map, nth_error_seq.
  apply Nat.ltb_lt in H. rewrite H. reflexivity.
Qed.

(** One voxel per sample, volumes of size [1 x 1 x 1]. *)
Definition voxel_container (vs : list num) : MultiClass3d :=
  mk_MultiClass3d 1 1 1 [0; 1]%nat (mk_ndarray [length vs; 1; 1; 1]%nat vs).

Lemma nanmean_all_nan (i : nat) (sel : list MultiClass3d) :
  Forall (fun p => nth i (data (y_pred p)) None = None) sel ->
  nanmean (column (map (fun p => data (y_pred p)) sel) i) = None.
Proof.
  intros H. unfold nanmean, column.
  replace (flat_map _ _) with (@nil Q); [reflexivity |].
  induction H as [| p sel Hp _ IH]; [reflexivity |].
  cbn [map flat_map]. rewrite Hp. exact IH.
Qed.

(** ** C1: combine averages, then thresholds at 0.5 *)

(** C1: [_MultiClass3d.combine] averages each voxel over the selected
    containers (ignoring [nan] entries) and then maps every average below
    [0.5] to [0.0] and every average of at least [0.5] to [1.0];
    averaging [0.2] and [1.0] gives [0.6], labelled [1.0], and an
    average of exactly [0.5] is labelled [1.0]. *)
Theorem combine_averages_then_thresholds :
  (forall x y z labels preds index_list c,
     MultiClass3d_combine x y z labels preds index_list = Ok c ->
     exists sel, select preds index_list = Some sel /\
       forall i a, (i < length (data (y_pred c)))%nat ->
         nanmean (column (map (fun p => data (y_pred p)) sel) i) = Some a ->
         (a < 1#2 -> nth_error (data (y_pred c)) i = Some (Some 0)) /\
         (1#2 <= a -> nth_error (data (y_pred c)) i = Some (Some 1))) /\
  (exists a, nanmean [Some (2#10); Some 1] = Some a /\ a == 6#10) /\
  MultiClass3d_combine 1 1 1 [0; 1]%nat
    [voxel_container [Some (2#10)]; voxel_container [Some 1]] None
    = Ok (voxel_container [Some 1]) /\
  MultiClass3d_combine 1 1 1 [0; 1]%nat
    [voxel_container [Some 0]; voxel_container [Some 1]] None
    = Ok (voxel_container [Some 1]).
Proof.
  split; [| split; [| split]].
  - intros x y z labels preds index_list c Hc.
    destruct (combine_data _ _ _ _ _ _ _ Hc) as [sel [Hs [_ Hd]]].
    exists sel. split; [exact Hs |].
    intros i a Hi Ha.
    assert (Hn : nth_error (data (y_pred c)) i = Some (combine_threshold (Some a))).
    { rewrite Hd in *. rewrite length_map, length_seq in Hi.
      rewrite nth_error_map_seq by exact Hi. rewrite Ha. reflexivity. }
    rewrite Hn. split; intros Hlt.
    + rewrite combine_threshold_lt by exact Hlt. reflexivity.
    + rewrite combine_threshold_ge by exact Hlt. reflexivity.
  - eexists; split; [reflexivity |]. reflexivity.
  - vm_compute. reflexivity.
  - vm_compute. reflexivity.
Qed.

Lemma combine_averages_then_thresholds_witness :
  nth_error (data (y_pred (voxel_container [Some 1]))) 0 = Some (Some 1).
Proof.
  destruct (proj1 combine_averages_then_thresholds 1%nat 1%nat 1%nat [0; 1]%nat
              [voxel_container [Some (2#10)]; voxel_container [Some 1]] None
              (voxel_container [Some 1]) eq_refl) as [sel [Hs H]].
  simpl in Hs. injection Hs as <-.
  refine (proj2 (H 0%nat _ _ eq_refl) _).
  - simpl. lia.
  - apply Qle_bool_iff. vm_compute. reflexivity.
Defined.

(** ** C5: samples no container covers stay [nan] and are invalid *)

(** C5: in the result of [combine], a voxel that is [nan] in every
    contributing container stays [nan] (the thresholds leave it alone) and
    [valid_indexes] reports it [False]; on any 4-D container (every
    constructed one) [valid_indexes] is [True] exactly at the non-[nan]
    entries. *)
Theorem combine_uncovered_stays_nan_and_invalid :
  (forall x y z labels preds index_list c sel i,
     MultiClass3d_combine x y z labels preds index_list = Ok c ->
     select preds index_list = Some sel ->
     (i < length (data (y_pred c)))%nat ->
     Forall (fun p => nth i (data (y_pred p)) None = None) sel ->
     nth_error (data (y_pred c)) i = Some None /\
     exists v, valid_indexes c = Some v /\ nth_error (data v) i = Some false) /\
  (forall c, length (shape (y_pred c)) = 4%nat ->
     exists v, valid_indexes c = Some v /\ shape v = shape (y_pred c) /\
       forall i, nth_error (data v) i =
         option_map (fun e : num => match e with Some _ => true | None => false end)
                    (nth_error (data (y_pred c)) i)) /\
  (forall x y z labels yp yt n c,
     MultiClass3d_init x y z labels yp yt n = Ok c ->
     length (shape (y_pred c)) = 4%nat).
Proof.
  assert (Hvalid : forall c, length (shape (y_pred c)) = 4%nat ->
     exists v, valid_indexes c = Some v /\ shape v = shape (y_pred c) /\
       forall i, nth_error (data v) i =
         option_map (fun e : num => match e with Some _ => true | None => false end)
                    (nth_error (data (y_pred c)) i)).
  { intros c H4. unfold valid_indexes. rewrite H4. simpl.
    eexists; split; [reflexivity |]. split; [reflexivity |].
    intros i. apply nth_error_map. }
  split; [| split; [exact Hvalid | exact init_rank4]].
  intros x y z labels preds index_list c sel i Hc Hs Hi Hnan.
  destruct (combine_data _ _ _ _ _ _ _ Hc) as [sel' [Hs' [H4 Hd]]].
  rewrite Hs in Hs'. injection Hs' as <-.
  assert (Hn : nth_error (data (y_pred c)) i = Some None).
  { rewrite Hd in *. rewrite length_map, length_seq in Hi.
    rewrite nth_error_map_seq by exact Hi. rewrite nanmean_all_nan by exact Hnan.
    reflexivity. }
  split; [exact Hn |].
  destruct (Hvalid c H4) as [v [Hv [_ Hvi]]].
  exists v. split; [exact Hv |]. rewrite Hvi, Hn. reflexivity.
Qed.

Lemma combine_uncovered_stays_nan_and_invalid_witness :
  nth_error (data (y_pred (voxel_container [Some 1; None]))) 1 = Some None.
Proof.
  apply (proj1 combine_uncovered_stays_nan_and_invalid 1%nat 1%nat 1%nat [0; 1]%nat
           [voxel_container [Some (2#10); None]; voxel_container [Some 1; None]] None
           (voxel_container [Some 1; None])
           [voxel_container [Some (2#10); None]; voxel_container [Some 1; None]] 1%nat).
  - vm_compute. reflexivity.
  - reflexivity.
  - simpl. lia.
  - repeat constructor.
Defined.

(* ------------------------------------------------------------------ *)
(** ** Shape validation at construction *)

(** The checks [__init__] makes on the array taken from [y_pred] or
    [y_true], for arrays of rank at least one, and the [n_samples] path. *)
Lemma init_shape_checks x y z labels yp yt n (a : ndarray num) :
  (yp = Some a \/ (yp = None /\ yt = Some a)) ->
  (forall N rest, shape a = N :: rest -> length (shape a) <> 4%nat ->
     MultiClass3d_init x y z labels yp yt n
       = Raise (ValueError_rank N x y z (shape a))) /\
  (length (shape a) = 4%nat -> tl (shape a) <> [x; y; z] ->
     MultiClass3d_init x y z labels yp yt n = Raise (ValueError_dims x y z (shape a))) /\
  ((exists c, MultiClass3d_init x y z labels yp yt n = Ok c) <->
     exists N, shape a = [N; x; y; z]).
Proof.
  intros Harg.
  assert (Hi : MultiClass3d_init x y z labels yp yt n =
               match check_y_pred_dimensions x y z a with
               | Some e => Raise e
               | None => Ok (mk_MultiClass3d x y z labels a)
               end).
  { destruct Harg as [-> | [-> ->]]; reflexivity. }
  rewrite Hi. unfold check_y_pred_dimensions, BasePrediction_n_samples.
  split; [| split].
  - intros N rest Hs Hl. apply Nat.eqb_neq in Hl. rewrite Hl, Hs. reflexivity.
  - intros Hl Hd. rewrite Hl. simpl.
    destruct (list_eq_dec _ _ _) as [He | _]; [contradiction | reflexivity].
  - destruct (shape a) as [| N [| x' [| y' [| z' [| w rest]]]]] eqn:Hs; cbn -[list_eq_dec];
      try (split; [intros [c Hc]; discriminate Hc | intros [N' HN]; discriminate HN]).
    destruct (list_eq_dec Nat.eq_dec [x'; y'; z'] [x; y; z]) as [He | Hne].
    + injection He as -> -> ->. split; [exists N | eexists]; reflexivity.
    + split; [intros [c Hc]; discriminate Hc |].
      intros [N' HN]. injection HN as _ -> -> ->. contradiction.
Qed.

(** ** C3: construction from a 0-d array *)

(** C3: construction rejects wrong shapes with a descriptive [ValueError]
    only for arrays of rank at least one: for a 0-d [y_pred] (here
    [np.array(0.5)]) formatting the rank message evaluates
    [self.n_samples = len(self.y_pred)], which raises [TypeError] first. *)
Theorem init_0d_y_pred_raises_TypeError :
  MultiClass3d_init 193 229 193 [0; 1]%nat
    (Some (mk_ndarray [] [Some (1#2)])) None None = Raise TypeError_unsized.
Proof. reflexivity. Qed.

(* ------------------------------------------------------------------ *)
(** ** C10: the estimator's strict threshold *)

Lemma map_nth_seq_id {A : Type} (l : list A) (dflt : A) :
  map (fun i => nth i l dflt) (seq 0 (length l)) = l.
Proof.
  apply nth_error_ext. intros k.
  rewrite nth_error_map, nth_error_seq.
  destruct (Nat.ltb k (length l)) eqn:E.
  - apply Nat.ltb_lt in E. simpl. symmetry. apply nth_error_nth'. exact E.
  - apply Nat.ltb_ge in E. simpl. symmetry. apply nth_error_None. exact E.
Qed.

(** C10: [predict] maps network outputs strictly above [0.5] to [1] and
    the others (also exactly [0.5]) to [0], removes the trailing channel
    axis, and returns only [0]s and [1]s; [combine] instead maps exactly
    [0.5] to [1.0]. *)
Theorem predict_strict_threshold_drops_channel :
  (forall (s : list nat) (d : list num),
     predict (mk_ndarray (s ++ [1%nat]) d) = Some (mk_ndarray s (map gt_half_int d))) /\
  (forall q : Q, gt_half_int (Some q) = 1%Z <-> 1#2 < q) /\
  (forall q : Q, gt_half_int (Some q) = 0%Z <-> q <= 1#2) /\
  (forall v : num, gt_half_int v = 0%Z \/ gt_half_int v = 1%Z) /\
  gt_half_int (Some (1#2)) = 0%Z /\
  combine_threshold (Some (1#2)) = Some 1.
Proof.
  split; [| split; [| split; [| split; [| split]]]].
  - intros s d. unfold predict, index_last0. cbn [shape data].
    rewrite rev_app_distr. cbn [rev app Nat.eqb].
    rewrite rev_involutive, Nat.div_1_r.
    f_equal. f_equal.
    erewrite map_ext by (intros i; rewrite Nat.mul_1_r; reflexivity).
    apply map_nth_seq_id.
  - intros q. unfold gt_half_int. destruct (Qle_bool q (1#2)) eqn:E.
    + apply Qle_bool_iff in E. split; [discriminate | intros H].
      exfalso. apply (Qlt_not_le _ _ H E).
    + split; [intros _ | reflexivity].
      apply Qnot_le_lt. intros H. apply Qle_bool_iff in H. congruence.
  - intros q. unfold gt_half_int. destruct (Qle_bool q (1#2)) eqn:E.
    + apply Qle_bool_iff in E. split; [intros _; exact E | reflexivity].
    + split; [discriminate | intros H]. apply Qle_bool_iff in H. congruence.
  - intros [q |]; unfold gt_half_int; [destruct (Qle_bool q (1#2)) |]; auto.
  - reflexivity.
  - reflexivity.
Qed.

(* ------------------------------------------------------------------ *)
(** ** Cross-validation splits *)

(** [ceil(0.2 * n)] is [ceil(n / 5)]. *)
Lemma n_test_ceil (n : nat) :
  Z.to_nat (Qceiling ((2#10) * Qnat n)) = ((n + 4) / 5)%nat.
Proof.
  unfold Qceiling, Qfloor, Qnat, Qmult, Qopp, inject_Z. cbn [Qnum Qden].
  change (Z.pos (10 * 1)) with 10%Z.
  pose proof (Z.div_mod (- (2 * Z.of_nat n)) 10 ltac:(lia)).
  pose proof (Z.mod_pos_bound (- (2 * Z.of_nat n)) 10 ltac:(lia)).
  pose proof (Nat.div_mod (n + 4) 5 ltac:(lia)).
  pose proof (Nat.mod_upper_bound (n + 4) 5 ltac:(lia)).
  lia.
Qed.

Lemma validate_shuffle_split_small (n : nat) :
  (n <= 1)%nat -> validate_shuffle_split n (2#10) = Raise ValueError_empty_train.
Proof.
  intros Hn. unfold validate_shuffle_split. rewrite n_test_ceil.
  replace (Nat.eqb (n - (n + 4) / 5) 0) with true; [reflexivity |].
  symmetry. apply Nat.eqb_eq. destruct n as [| [| n]]; [reflexivity | reflexivity | lia].
Qed.

Lemma validate_shuffle_split_ok (n : nat) :
  (2 <= n)%nat ->
  validate_shuffle_split n (2#10) = Ok ((n - (n + 4) / 5)%nat, ((n + 4) / 5)%nat).
Proof.
  intros Hn. unfold validate_shuffle_split. rewrite n_test_ceil.
  replace (Nat.eqb (n - (n + 4) / 5) 0) with false; [reflexivity |].
  symmetry. apply Nat.eqb_neq.
  pose proof (Nat.div_mod (n + 4) 5 ltac:(lia)).
  pose proof (Nat.mod_upper_bound (n + 4) 5 ltac:(lia)).
  lia.
Qed.

Lemma test_mode_spec (v : option string) :
  test_mode v = true <-> exists s, v = Some s /\ s <> EmptyString.
Proof.
  destruct v as [s |]; simpl.
  - rewrite negb_true_iff, String.eqb_neq. split.
    + intros H. exists s. split; [reflexivity | exact H].
    + intros [s' [Hs H]]. injection Hs as <-. exact H.
  - split; [discriminate | intros [s' [Hs _]]; discriminate Hs].
Qed.

(** ** C4: the splits of [get_cv] *)

(** C4 (counterexample): with [RAMP_TEST_MODE] set to the empty string
    [get_cv] yields 8 splits, not 1; and on a one-sample dataset it raises
    instead of yielding splits. *)
Lemma get_cv_claim_counterexample :
  (exists splits,
     get_cv (fun _ _ n => seq 0 n) (Some EmptyString) (repeat tt 10) tt = Ok splits /\
     length splits = 8%nat) /\
  get_cv (fun _ _ n => seq 0 n) None (repeat tt 1) tt = Raise ValueError_empty_train.
Proof.
  split; [eexists; split; [reflexivity | reflexivity] | reflexivity].
Qed.

(** C4 (amended): [get_cv] splits with [ShuffleSplit(test_size=0.2,
    random_state=42)], making 1 split when [RAMP_TEST_MODE] is a non-empty
    string and 8 otherwise (unset or empty); on [n >= 2] samples each
    split holds out [ceil(n/5)] samples and trains on the other
    [n - ceil(n/5)], the two parts together being all [n] indices; on
    [n <= 1] samples it raises; the splits depend only on the seed and
    on [n], so repeated calls give identical splits. *)
Theorem get_cv_shuffle_splits
    (permutation : Z -> nat -> nat -> list nat)
    (Hperm : forall seed i n, Permutation (permutation seed i n) (seq 0 n))
    {A B : Type} (ramp_test_mode : option string) (X : list A) (y : B) :
  let n := length X in
  let k := if test_mode ramp_test_mode then 1%nat else 8%nat in
  (test_mode ramp_test_mode = true <->
     exists s, ramp_test_mode = Some s /\ s <> EmptyString) /\
  ((n <= 1)%nat -> get_cv permutation ramp_test_mode X y = Raise ValueError_empty_train) /\
  ((2 <= n)%nat ->
     exists splits, get_cv permutation ramp_test_mode X y = Ok splits /\
       length splits = k /\
       Forall (fun tt : list nat * list nat =>
                 length (snd tt) = ((n + 4) / 5)%nat /\
                 length (fst tt) = (n - (n + 4) / 5)%nat /\
                 Permutation (snd tt ++ fst tt) (seq 0 n)) splits) /\
  (forall (X' : list A) (y' : B), length X' = n ->
     get_cv permutation ramp_test_mode X' y' = get_cv permutation ramp_test_mode X y).
Proof.
  intros n k. assert (Hnx : length X = n) by reflexivity. clearbody n.
  split; [apply test_mode_spec | split; [| split]].
  - intros Hn. unfold get_cv, ShuffleSplit_split, get_cv_splitter. cbn [test_size].
    rewrite Hnx, validate_shuffle_split_small by exact Hn. reflexivity.
  - intros Hn. unfold get_cv, ShuffleSplit_split, get_cv_splitter. cbn [test_size].
    rewrite Hnx, validate_shuffle_split_ok by exact Hn.
    assert (Ht : ((n + 4) / 5 <= n)%nat).
    { pose proof (Nat.div_mod (n + 4) 5 ltac:(lia)).
      pose proof (Nat.mod_upper_bound (n + 4) 5 ltac:(lia)). lia. }
    remember ((n + 4) / 5)%nat as t eqn:Et. clear Et.
    eexists; split; [reflexivity |]. split.
    + rewrite length_map, length_seq. reflexivity.
    + apply Forall_forall. intros [train test] Hin.
      apply in_map_iff in Hin as [i [Hi _]]. injection Hi as <- <-.
      cbn [fst snd random_state].
      pose proof (Hperm RANDOM_STATE i n) as Hp.
      revert Hp. generalize (permutation RANDOM_STATE i n).
      intros perm Hp.
      assert (Hl : length perm = n).
      { rewrite (Permutation_length Hp), length_seq. reflexivity. }
      assert (Hs : firstn (n - t) (skipn t perm) = skipn t perm).
      { apply firstn_all2. rewrite length_skipn. lia. }
      rewrite Hs. split; [| split].
      * rewrite length_firstn. lia.
      * rewrite length_skipn. lia.
      * rewrite firstn_skipn. exact Hp.
  - intros X' y' HX. unfold get_cv. rewrite HX, Hnx. reflexivity.
Qed.

Lemma get_cv_shuffle_splits_witness :
  exists splits,
    get_cv (fun _ _ n => seq 0 n) None (repeat tt 10) tt = Ok splits /\
    length splits = 8%nat.
Proof.
  destruct (proj1 (proj2 (proj2 (get_cv_shuffle_splits (fun _ _ n => seq 0 n)
              (fun _ _ n => Permutation_refl (seq 0 n)) None (repeat tt 10) tt))))
    as [splits [H1 [H2 _]]].
  - simpl. lia.
  - exists splits. split; [exact H1 | exact H2].
Defined.

(* ================================================================== *)
(** * Further properties of the scores *)

Lemma ratio_unit_interval (a b : nat) :
  0 <= (if Nat.eqb (a + b) 0 then 0 else Qnat a / Qnat (a + b)) <= 1.
Proof.
  destruct (Nat.eqb (a + b) 0) eqn:E.
  - split; discriminate.
  - apply Nat.eqb_neq in E.
    assert (Hp : 0 < Qnat (a + b)) by (apply Qnat_pos; lia).
    split.
    + apply Qle_shift_div_l; [exact Hp |]. rewrite Qmult_0_l. apply Qnat_nonneg.
    + apply Qle_shift_div_r; [exact Hp |]. rewrite Qmult_1_l. apply Qnat_le. lia.
Qed.

(** X1: whenever [Precision] or [Recall] returns a score (both masks
    passed [check_mask]), the score lies in [[0, 1]]. *)
Theorem Precision_Recall_unit_interval (A B : list Q) :
  (forall p, Precision A B = Some p -> 0 <= p <= 1) /\
  (forall r, Recall A B = Some r -> 0 <= r <= 1).
Proof.
  split.
  - intros p. unfold Precision.
    destruct (check_mask A), (check_mask B); try discriminate.
    destruct (_ && _); intros H; injection H as <-.
    + split; discriminate.
    + apply ratio_unit_interval.
  - intros r. unfold Recall.
    destruct (check_mask A), (check_mask B); try discriminate.
    intros H; injection H as <-. apply ratio_unit_interval.
Qed.

Lemma Precision_Recall_unit_interval_witness :
  0 <= 3#4 <= 1.
Proof.
  apply (proj1 (Precision_Recall_unit_interval [1; 1; 0; 1] [1; 1; 1; 1])).
  vm_compute. reflexivity.
Defined.

Lemma Qeq_bool_comp_l (x y z : Q) : x == y -> Qeq_bool x z = Qeq_bool y z.
Proof.
  intros H. apply eq_true_iff_eq. rewrite !Qeq_bool_iff. rewrite H. reflexivity.
Qed.

Lemma binary_diag_counts (A : list Q) :
  check_mask A = true ->
  length (filter (fun p => Qeq_bool (fst p) 1 && Qeq_bool (snd p) 1) (combine A A)) = npos A /\
  length (filter (fun p => Qeq_bool (fst p) 0 && Qeq_bool (snd p) 1) (combine A A)) = 0%nat /\
  length (filter (fun p => Qeq_bool (fst p) 1 && Qeq_bool (snd p) 0) (combine A A)) = 0%nat.
Proof.
  induction A as [| x A IH]; intros Hc; [repeat split |].
  apply check_mask_cons in Hc as [Hx Hc]. specialize (IH Hc).
  unfold npos in *. cbn [combine filter fst snd].
  destruct Hx as [Hx | Hx].
  - rewrite (Qeq_bool_comp_l x 0 1 Hx), (Qeq_bool_comp_l x 0 0 Hx).
    assert (Hn : nz x = false) by (apply nz_false; exact Hx). rewrite Hn.
    cbn. exact IH.
  - rewrite (Qeq_bool_comp_l x 1 1 Hx), (Qeq_bool_comp_l x 1 0 Hx).
    assert (Hn : nz x = true).
    { destruct (nz x) eqn:E; [reflexivity |]. apply nz_false in E.
      rewrite Hx in E. discriminate E. }
    rewrite Hn. cbn. destruct IH as [I1 [I2 I3]]. rewrite I1, I2, I3. auto.
Qed.

(** X2: a binary mask with at least one positive voxel has precision
    and recall exactly [1] against itself. *)
Theorem Precision_Recall_self_one (A : list Q) :
  check_mask A = true -> npos A <> 0%nat ->
  (exists p, Precision A A = Some p /\ p == 1) /\
  (exists r, Recall A A = Some r /\ r == 1).
Proof.
  intros Hc Hn. destruct (binary_diag_counts A Hc) as [Htp [Hfp Hfn]].
  assert (Hq : Qnat (npos A) / Qnat (npos A + 0) == 1).
  { rewrite Nat.add_0_r. field. intros H. apply Qnat_eq0 in H. lia. }
  assert (Hb : Nat.eqb (npos A + 0) 0 = false) by (apply Nat.eqb_neq; lia).
  split.
  - unfold Precision. rewrite Hc.
    rewrite (np_sum_zero_binary A Hc). apply Nat.eqb_neq in Hn. rewrite Hn.
    eexists; split; [reflexivity |].
    unfold precision_score. rewrite Htp, Hfp, Hb. exact Hq.
  - unfold Recall. rewrite Hc. eexists; split; [reflexivity |].
    unfold recall_score. rewrite Htp, Hfn, Hb. exact Hq.
Qed.

Lemma Precision_Recall_self_one_witness :
  exists r, Recall [1; 0; 1] [1; 0; 1] = Some r /\ r == 1.
Proof.
  apply (Precision_Recall_self_one [1; 0; 1]); [reflexivity | discriminate].
Defined.

Lemma binary_pair_counts (A B : list Q) :
  check_mask A = true -> check_mask B = true -> length A = length B ->
  length (filter (fun p => Qeq_bool (fst p) 1 && Qeq_bool (snd p) 1) (combine A B))
    = ninter A B /\
  (length (filter (fun p => Qeq_bool (fst p) 1 && Qeq_bool (snd p) 1) (combine A B)) +
   length (filter (fun p => Qeq_bool (fst p) 0 && Qeq_bool (snd p) 1) (combine A B))
    = npos B)%nat /\
  (length (filter (fun p => Qeq_bool (fst p) 1 && Qeq_bool (snd p) 1) (combine A B)) +
   length (filter (fun p => Qeq_bool (fst p) 1 && Qeq_bool (snd p) 0) (combine A B))
    = npos A)%nat.
Proof.
  revert B. induction A as [| x A IH]; intros [| y B] HA HB Hl; try discriminate Hl.
  - repeat split.
  - apply check_mask_cons in HA as [Hx HA]. apply check_mask_cons in HB as [Hy HB].
    injection Hl as Hl. destruct (IH B HA HB Hl) as [I1 [I2 I3]].
    unfold ninter, npos in *. cbn [combine filter fst snd].
    change (nz x) with (negb (Qeq_bool x 0)). change (nz y) with (negb (Qeq_bool y 0)).
    destruct Hx as [Hx | Hx], Hy as [Hy | Hy];
      rewrite ?(Qeq_bool_comp_l _ _ 1 Hx), ?(Qeq_bool_comp_l _ _ 0 Hx),
              ?(Qeq_bool_comp_l _ _ 1 Hy), ?(Qeq_bool_comp_l _ _ 0 Hy);
      simpl; repeat split; lia.
Qed.

(** X3: every score of [score_types] ([DiceCoeff], [Precision], [Recall])
    and [AbsoluteVolumeDifference] raises (its [check_mask] assertion)
    as soon as either mask holds a value outside [{0, 1}]. *)
Theorem scores_reject_non_binary (A B : list Q) :
  check_mask A = false \/ check_mask B = false ->
  DiceCoeff A B = None /\ Precision A B = None /\ Recall A B = None /\
  AbsoluteVolumeDifference A B = None.
Proof.
  intros H. unfold DiceCoeff, Precision, Recall, AbsoluteVolumeDifference.
  destruct H as [H | H]; rewrite H; [repeat split |].
  destruct (check_mask A); repeat split.
Qed.

Lemma scores_reject_non_binary_witness :
  DiceCoeff [1; 0] [1; 1#2] = None /\ Precision [1; 0] [1; 1#2] = None /\
  Recall [1; 0] [1; 1#2] = None /\ AbsoluteVolumeDifference [1; 0] [1; 1#2] = None.
Proof. apply scores_reject_non_binary. right. reflexivity. Defined.

(** X4: [Recall] is [0] whenever the truth has no positive voxel, whatever
    the (binary) prediction; in particular an empty prediction of an empty
    truth, which [DiceCoeff] scores [1], gets precision and recall [0]. *)
Theorem Recall_empty_truth_and_empty_agreement (A B : list Q) :
  check_mask A = true -> check_mask B = true -> length A = length B ->
  npos A = 0%nat ->
  Recall A B = Some 0 /\
  (npos B = 0%nat ->
     DiceCoeff A B = Some 1 /\ Precision A B = Some 0 /\ Recall A B = Some 0).
Proof.
  intros HA HB Hl H0.
  destruct (binary_pair_counts A B HA HB Hl) as [I1 [I2 I3]].
  assert (HR : Recall A B = Some 0).
  { unfold Recall. rewrite HA, HB. unfold recall_score.
    rewrite H0 in I3. rewrite I3. reflexivity. }
  split; [exact HR |]. intros HB0. split; [| split; [| exact HR]].
  - unfold DiceCoeff. rewrite HA, HB. unfold dice_coeff.
    rewrite !np_any_npos, H0, HB0. reflexivity.
  - unfold Precision. rewrite HA, HB, (np_sum_zero_binary A HA), (np_sum_zero_binary B HB).
    rewrite H0, HB0. simpl. unfold precision_score.
    rewrite HB0 in I2. rewrite I2. reflexivity.
Qed.

Lemma Recall_empty_truth_and_empty_agreement_witness :
  Recall [0; 0; 0] [1; 0; 1] = Some 0 /\
  DiceCoeff [0; 0] [0; 0] = Some 1 /\ Precision [0; 0] [0; 0] = Some 0 /\
  Recall [0; 0] [0; 0] = Some 0.
Proof.
  split.
  - exact (proj1 (Recall_empty_truth_and_empty_agreement [0; 0; 0] [1; 0; 1]
                    eq_refl eq_refl eq_refl eq_refl)).
  - exact (proj2 (Recall_empty_truth_and_empty_agreement [0; 0] [0; 0]
                    eq_refl eq_refl eq_refl eq_refl) eq_refl).
Defined.

(** X5: when the two binary masks share a positive voxel, [DiceCoeff] is
    the harmonic mean of [Precision] and [Recall] (the F1 score). *)
Theorem Dice_harmonic_mean_of_precision_recall (A B : list Q) :
  check_mask A = true -> check_mask B = true -> length A = length B ->
  ninter A B <> 0%nat ->
  exists d p r, DiceCoeff A B = Some d /\ Precision A B = Some p /\
    Recall A B = Some r /\ d == 2 * p * r / (p + r).
Proof.
  intros HA HB Hl Hi.
  destruct (binary_pair_counts A B HA HB Hl) as [I1 [I2 I3]].
  pose proof (ninter_le_l A B) as La.
  pose proof (ninter_le_l B A) as Lb. rewrite ninter_comm in Lb.
  exists (dice_coeff A B), (precision_score A B), (recall_score A B).
  split; [unfold DiceCoeff; rewrite HA, HB; reflexivity |].
  split.
  { unfold Precision. rewrite HA, HB, (np_sum_zero_binary B HB).
    replace (Nat.eqb (npos B) 0) with false by (symmetry; apply Nat.eqb_neq; lia).
    reflexivity. }
  split; [unfold Recall; rewrite HA, HB; reflexivity |].
  rewrite (dice_coeff_counts A B HA HB).
  replace (Nat.eqb (npos A) 0) with false by (symmetry; apply Nat.eqb_neq; lia).
  unfold precision_score, recall_score. rewrite I2, I3, I1.
  replace (Nat.eqb (npos B) 0) with false by (symmetry; apply Nat.eqb_neq; lia).
  replace (Nat.eqb (npos A) 0) with false by (symmetry; apply Nat.eqb_neq; lia).
  simpl andb. fold (Qnat (ninter A B)) (Qnat (npos A)) (Qnat (npos B)).
  assert (Pi : 0 < Qnat (ninter A B)) by (apply Qnat_pos; lia).
  assert (Pa : 0 < Qnat (npos A)) by (apply Qnat_pos; lia).
  assert (Pb : 0 < Qnat (npos B)) by (apply Qnat_pos; lia).
  set (i := Qnat (ninter A B)) in *. set (a := Qnat (npos A)) in *.
  set (b := Qnat (npos B)) in *. cbv iota.
  field. repeat split; intros E; nra.
Qed.

Lemma Dice_harmonic_mean_of_precision_recall_witness :
  exists d p r, DiceCoeff [1; 1; 0; 1] [1; 0; 1; 1] = Some d /\
    Precision [1; 1; 0; 1] [1; 0; 1; 1] = Some p /\
    Recall [1; 1; 0; 1] [1; 0; 1; 1] = Some r /\ d == 2 * p * r / (p + r).
Proof.
  apply Dice_harmonic_mean_of_precision_recall; try reflexivity. discriminate.
Defined.

(* ------------------------------------------------------------------ *)
(** ** The estimator's minibatch generators *)

Section Minibatches.
Local Open Scope nat_scope.














End Minibatches.

(* ------------------------------------------------------------------ *)
(** ** [fit]: the train/validation split and the step counts *)

Section Fit.
Local Open Scope nat_scope.

Lemma NoDup_app_disjoint {A : Type} (l l' : list A) :
  NoDup (l ++ l') -> forall a, In a l -> ~ In a l'.
Proof.
  induction l as [| x l IH]; intros Hn a Ha; [destruct Ha |].
  inversion Hn as [| ? ? Hx Hn']; subst. destruct Ha as [<- | Ha].
  - intros H. apply Hx, in_or_app. right. exact H.
  - apply IH; assumption.
Qed.

(** X8: [fit] splits the shuffled [np.arange(nb)] into a training part of
    [int(nb * 0.9)] indices and a validation part holding the rest: the
    two parts are disjoint, together they are the shuffled indices, all
    below [nb] (valid [ImageLoader] indices); the validation part is never
    empty once there is an image, and the training part is empty exactly
    when there is at most one image. *)
Theorem fit_plan_partition (nb : nat) (indices : list nat) :
  Permutation indices (seq 0 nb) ->
  ind_train (fit_plan nb indices) ++ ind_valid (fit_plan nb indices) = indices /\
  (forall i, In i (ind_train (fit_plan nb indices)) -> ~ In i (ind_valid (fit_plan nb indices))) /\
  Forall (fun i => i < nb) indices /\
  length (ind_train (fit_plan nb indices)) = 9 * nb / 10 /\
  length (ind_valid (fit_plan nb indices)) = nb - 9 * nb / 10 /\
  (1 <= nb -> 1 <= length (ind_valid (fit_plan nb indices))) /\
  (ind_train (fit_plan nb indices) = [] <-> nb <= 1).
Proof.
  intros Hp. pose proof (Permutation_length Hp) as Hl. rewrite length_seq in Hl.
  pose proof (Nat.div_mod (9 * nb) 10 ltac:(lia)) as Hd.
  pose proof (Nat.mod_upper_bound (9 * nb) 10 ltac:(lia)) as Hm.
  cbn [fit_plan ind_train ind_valid].
  assert (He : firstn (9 * nb / 10) indices ++ skipn (9 * nb / 10) indices = indices)
    by apply firstn_skipn.
  split; [exact He |]. split; [| split; [| split; [| split; [| split]]]].
  - apply NoDup_app_disjoint. rewrite He.
    apply (Permutation_NoDup (Permutation_sym Hp)), seq_NoDup.
  - apply Forall_forall. intros i Hi. apply (Permutation_in _ Hp), in_seq in Hi. lia.
  - rewrite length_firstn. lia.
  - rewrite length_skipn. lia.
  - rewrite length_skipn. lia.
  - split.
    + intros H. apply (f_equal (@length nat)) in H. rewrite length_firstn in H.
      cbn [length] in H. lia.
    + intros H. assert (E : 9 * nb / 10 = 0) by lia. rewrite E. reflexivity.
Qed.

Lemma fit_plan_partition_witness :
  ind_train (fit_plan 10 (rev (seq 0 10))) ++ ind_valid (fit_plan 10 (rev (seq 0 10)))
    = rev (seq 0 10) /\
  length (ind_valid (fit_plan 10 (rev (seq 0 10)))) = 1.
Proof.
  destruct (fit_plan_partition 10 (rev (seq 0 10))
              (Permutation_sym (Permutation_rev (seq 0 10)))) as [H1 [_ [_ [_ [H5 _]]]]].
  split; [exact H1 | exact H5].
Defined.



End Fit.

(* ------------------------------------------------------------------ *)
(** ** The estimator's output and the [Predictions] container *)

Lemma check_dims_shape_only (x y z : nat) (a b : ndarray num) :
  shape a = shape b -> check_y_pred_dimensions x y z a = check_y_pred_dimensions x y z b.
Proof.
  intros H. unfold check_y_pred_dimensions, BasePrediction_n_samples. rewrite H. reflexivity.
Qed.

(** X10: the estimator returned by [get_estimator] works on images of
    [197 x 233 x 189] voxels, so [predict] returns labels of shape
    [(N, 197, 233, 189)], which the problem's [Predictions] container
    ([193 x 229 x 193]) rejects with its dimension error, whatever the
    network's output values. *)
Theorem predict_output_rejected_by_Predictions (N : nat) (d : list num) :
  exists r, predict (mk_ndarray (model_output_shape N estimator_image_size) d) = Some r /\
    shape r = [N; 197; 233; 189]%nat /\
    Predictions (Some (as_float r)) None None
      = Raise (ValueError_dims 193 229 193 [N; 197; 233; 189]%nat).
Proof.
  eexists. split; [reflexivity |]. split; [reflexivity |].
  unfold Predictions, MultiClass3d_init, check_y_pred_dimensions. cbn [shape as_float].
  destruct (list_eq_dec Nat.eq_dec [197; 233; 189]%nat [193; 229; 193]%nat) as [E | _];
    [discriminate E | reflexivity].
Qed.

(** X11: [Predictions(n_samples=n)] always builds a container of shape
    [(n, 193, 229, 193)] filled with [nan], which [valid_indexes] reports
    as entirely invalid. *)
Theorem Predictions_n_samples_all_nan (n : nat) :
  exists c, Predictions None None (Some n) = Ok c /\
    shape (y_pred c) = [n; 193; 229; 193]%nat /\
    Forall (fun v => v = None) (data (y_pred c)) /\
    valid_indexes c
      = Some (mk_ndarray [n; 193; 229; 193]%nat (repeat false (prod [n; 193; 229; 193]%nat))).
Proof.
  unfold Predictions, MultiClass3d_init, np_full_nan.
  set (m := prod [n; 193; 229; 193]%nat). clearbody m.
  unfold check_y_pred_dimensions. cbn [shape length tl Nat.eqb negb].
  destruct (list_eq_dec Nat.eq_dec [193; 229; 193]%nat [193; 229; 193]%nat) as [_ | C];
    [| exfalso; apply C; reflexivity].
  eexists. split; [reflexivity |]. cbn [y_pred shape data]. split; [reflexivity |].
  split.
  - apply Forall_forall. intros v Hv. apply repeat_spec in Hv. exact Hv.
  - unfold valid_indexes. cbn [y_pred shape data length Nat.eqb]. rewrite map_repeat.
    reflexivity.
Qed.

Lemma combine_threshold_labels (v : num) :
  combine_threshold v = None \/ combine_threshold v = Some 0 \/ combine_threshold v = Some 1.
Proof.
  destruct v as [a |]; [| left; reflexivity]. right.
  destruct (Qlt_le_dec a (1#2)) as [H | H].
  - left. apply combine_threshold_lt, H.
  - right. apply combine_threshold_ge, H.
Qed.

(** X12: every entry of a combined container is [0.0], [1.0] or [nan]. *)
Theorem MultiClass3d_combine_labels x y z labels preds index_list c :
  MultiClass3d_combine x y z labels preds index_list = Ok c ->
  Forall (fun v => v = None \/ v = Some 0 \/ v = Some 1) (data (y_pred c)).
Proof.
  intros H. destruct (combine_data x y z labels preds index_list c H) as [sel [_ [_ ->]]].
  apply Forall_forall. intros v Hv. apply in_map_iff in Hv as [i [<- _]].
  apply combine_threshold_labels.
Qed.

Lemma MultiClass3d_combine_labels_witness :
  exists c,
    MultiClass3d_combine 1 1 1 [0; 1]%nat
      [voxel_container [Some (1#5); None]; voxel_container [Some 1; None]] None = Ok c /\
    Forall (fun v => v = None \/ v = Some 0 \/ v = Some 1) (data (y_pred c)).
Proof.
  eexists. split; [reflexivity |].
  apply (MultiClass3d_combine_labels 1 1 1 [0; 1]%nat
           [voxel_container [Some (1#5); None]; voxel_container [Some 1; None]] None).
  reflexivity.
Defined.

(** X13: combining a single valid container whose entries are already
    [0.0], [1.0] or [nan] (the output of a combine, by X12) gives back its
    [y_pred] unchanged: combining is idempotent. *)
Theorem combine_single_labelled_container x y z labels c :
  check_y_pred_dimensions x y z (y_pred c) = None ->
  length (data (y_pred c)) = prod (shape (y_pred c)) ->
  Forall (fun v => v = None \/ v = Some 0 \/ v = Some 1) (data (y_pred c)) ->
  exists c', MultiClass3d_combine x y z labels [c] None = Ok c' /\ y_pred c' = y_pred c.
Proof.
  intros Hc Hl Hf. destruct c as [cx cy cz cl [s d]]. cbn [y_pred shape data] in *.
  unfold MultiClass3d_combine, base_combine, select. cbn [map np_array_stack forallb tl y_pred data shape].
  unfold MultiClass3d_init.
  rewrite (check_dims_shape_only x y z (nanmean_axis0 s [d]) (mk_ndarray s d) eq_refl), Hc.
  eexists. split; [reflexivity |]. cbn [y_pred shape data nanmean_axis0]. f_equal.
  rewrite !map_map, <- Hl.
  transitivity (map (fun i => nth i d None) (seq 0 (length d))); [| apply map_nth_seq_id].
  apply map_ext_in. intros i Hi. apply in_seq in Hi.
  assert (Hin : In (nth i d None) d) by (apply nth_In; lia).
  rewrite Forall_forall in Hf. unfold column. cbn [map].
  destruct (Hf _ Hin) as [-> | [-> | ->]]; reflexivity.
Qed.

Lemma combine_single_labelled_container_witness :
  exists c', MultiClass3d_combine 1 1 1 [0; 1]%nat
               [voxel_container [Some 0; None; Some 1]] None = Ok c' /\
             y_pred c' = y_pred (voxel_container [Some 0; None; Some 1]).
Proof.
  apply combine_single_labelled_container; [reflexivity | reflexivity |].
  repeat apply Forall_cons; [right; left | left | right; right | ]; try reflexivity.
  apply Forall_nil.
Defined.

(* ------------------------------------------------------------------ *)
(** ** The network's smoothed Dice metric and loss *)

Lemma flat_mul_same_length (a b : list Q) :
  length a = length b -> flat_mul a b = Some (map (fun p => fst p * snd p) (combine a b)).
Proof.
  intros H. unfold flat_mul. apply Nat.eqb_eq in H. rewrite H. reflexivity.
Qed.

Lemma smooth_sums_unit (a b : list Q) :
  length a = length b ->
  Forall (fun q => 0 <= q <= 1) a -> Forall (fun q => 0 <= q <= 1) b ->
  0 <= np_sum a /\ 0 <= np_sum b /\
  0 <= np_sum (map (fun p => fst p * snd p) (combine a b)) /\
  2 * np_sum (map (fun p => fst p * snd p) (combine a b)) <= np_sum a + np_sum b.
Proof.
  revert b; induction a as [| x a IH]; intros [| y b] Hl Ha Hb; try discriminate Hl.
  - unfold np_sum; simpl. repeat split; discriminate.
  - injection Hl as Hl. inversion Ha as [| ? ? Hx Ha']; subst.
    inversion Hb as [| ? ? Hy Hb']; subst.
    destruct (IH b Hl Ha' Hb') as [S1 [S2 [S3 S4]]].
    unfold np_sum in *; cbn [combine map fold_right fst snd].
    destruct Hx, Hy. repeat split; nra.
Qed.

(** X14: on a truth mask and a network output with values in [[0, 1]]
    (the last layer is a sigmoid), [_dice_coefficient] lies in [(0, 1]]:
    the smoothing term keeps it away from a division by zero and from
    [0], even on empty masks; the training loss is its opposite. *)
Theorem dice_coefficient_unit_interval (yt yp : list Q) :
  length yt = length yp ->
  Forall (fun q => 0 <= q <= 1) yt -> Forall (fun q => 0 <= q <= 1) yp ->
  exists d, dice_coefficient yt yp 1 = Some d /\ 0 < d <= 1 /\
            dice_coefficient_loss yt yp = Some (- d).
Proof.
  intros Hl Ht Hp. destruct (smooth_sums_unit yt yp Hl Ht Hp) as [S1 [S2 [S3 S4]]].
  unfold dice_coefficient_loss, dice_coefficient. rewrite (flat_mul_same_length yt yp Hl).
  eexists; split; [reflexivity |]. split; [| reflexivity].
  set (i := np_sum (map (fun p => fst p * snd p) (combine yt yp))) in *.
  assert (Hd : 0 < np_sum yt + np_sum yp + 1) by lra.
  split.
  - apply Qlt_shift_div_l; [exact Hd | lra].
  - apply Qle_shift_div_r; [exact Hd | lra].
Qed.

Lemma dice_coefficient_unit_interval_witness :
  exists d, dice_coefficient [1; 0; 1] [9#10; 1#5; 0] 1 = Some d /\ 0 < d <= 1 /\
            dice_coefficient_loss [1; 0; 1] [9#10; 1#5; 0] = Some (- d).
Proof.
  apply dice_coefficient_unit_interval; [reflexivity | |].
  - repeat apply Forall_cons; try apply Forall_nil; split; discriminate.
  - repeat apply Forall_cons; try apply Forall_nil; split; discriminate.
Defined.

Lemma binary_product_sum (a b : list Q) :
  check_mask a = true -> check_mask b = true ->
  np_sum (map (fun p => fst p * snd p) (combine a b)) == Qnat (ninter a b).
Proof.
  revert b; induction a as [| x a IH]; intros [| y b] Ha Hb; try reflexivity.
  apply check_mask_cons in Ha as [Hx Ha]. apply check_mask_cons in Hb as [Hy Hb].
  specialize (IH b Ha Hb). unfold ninter in *. unfold np_sum in *.
  cbn [combine map fold_right fst snd filter].
  change (nz x) with (negb (Qeq_bool x 0)). change (nz y) with (negb (Qeq_bool y 0)).
  destruct Hx as [Hx | Hx], Hy as [Hy | Hy];
    rewrite ?(Qeq_bool_comp_l _ _ 0 Hx), ?(Qeq_bool_comp_l _ _ 0 Hy);
    simpl; rewrite IH, Hx, Hy; try ring.
  rewrite Qnat_S. ring.
Qed.

Lemma ratio_le_smooth (x t : Q) :
  0 <= x -> x <= t -> 0 < t -> x / t <= (x + 1) / (t + 1).
Proof.
  intros H0 H1 H2.
  assert (Hr : x / t <= 1) by (apply Qle_shift_div_r; lra).
  assert (Hr0 : 0 <= x / t) by (apply Qle_shift_div_l; lra).
  apply Qle_shift_div_l; [lra |].
  setoid_replace (x / t * (t + 1)) with (x + x / t); [lra |].
  field. intros E. rewrite E in H2. discriminate H2.
Qed.

(** X15: on binary masks of the same size, the network's training metric
    [_dice_coefficient] is never below the evaluation score [DiceCoeff]
    (the smoothing only adds agreement), and both are [1] on two empty
    masks. *)
Theorem dice_coefficient_ge_DiceCoeff (A B : list Q) :
  check_mask A = true -> check_mask B = true -> length A = length B ->
  exists d s, dice_coefficient A B 1 = Some s /\ DiceCoeff A B = Some d /\ d <= s /\
    (npos A = 0%nat -> npos B = 0%nat -> d == 1 /\ s == 1).
Proof.
  intros HA HB Hl.
  exists (dice_coeff A B).
  eexists; split; [unfold dice_coefficient; rewrite (flat_mul_same_length A B Hl); reflexivity |].
  split; [unfold DiceCoeff; rewrite HA, HB; reflexivity |].
  rewrite (dice_coeff_counts A B HA HB).
  rewrite (binary_product_sum A B HA HB), (np_sum_binary A HA), (np_sum_binary B HB).
  pose proof (ninter_le_l A B) as La.
  pose proof (ninter_le_l B A) as Lb. rewrite ninter_comm in Lb.
  assert (Li : 2 * Qnat (ninter A B) <= Qnat (npos A) + Qnat (npos B)).
  { rewrite <- Qnat_add. unfold Qnat, Qle, Qmult, inject_Z; cbn [Qnum Qden]. lia. }
  assert (L0 : 0 <= 2 * Qnat (ninter A B)).
  { unfold Qnat, Qle, Qmult, inject_Z; cbn [Qnum Qden]. lia. }
  split.
  - destruct (Nat.eqb (npos A) 0) eqn:EA, (Nat.eqb (npos B) 0) eqn:EB; cbn [andb].
    + apply Nat.eqb_eq in EA, EB. rewrite EA, EB.
      assert (E : ninter A B = 0%nat) by lia. rewrite E.
      apply Qle_bool_imp_le. vm_compute. reflexivity.
    + apply ratio_le_smooth; [exact L0 | exact Li |].
      rewrite <- Qnat_add. apply Qnat_pos. apply Nat.eqb_neq in EB. lia.
    + apply ratio_le_smooth; [exact L0 | exact Li |].
      rewrite <- Qnat_add. apply Qnat_pos. apply Nat.eqb_neq in EA. lia.
    + apply ratio_le_smooth; [exact L0 | exact Li |].
      rewrite <- Qnat_add. apply Qnat_pos. apply Nat.eqb_neq in EA. lia.
  - intros H0 H1. rewrite H0, H1. assert (E : ninter A B = 0%nat) by lia. rewrite E.
    split; apply Qeq_bool_iff; vm_compute; reflexivity.
Qed.

Lemma dice_coefficient_ge_DiceCoeff_witness :
  exists d s, dice_coefficient [1; 1; 0; 0] [1; 0; 1; 0] 1 = Some s /\
    DiceCoeff [1; 1; 0; 0] [1; 0; 1; 0] = Some d /\ d <= s /\
    (npos [1; 1; 0; 0] = 0%nat -> npos [1; 0; 1; 0] = 0%nat -> d == 1 /\ s == 1).
Proof. apply dice_coefficient_ge_DiceCoeff; reflexivity. Defined.

(* ------------------------------------------------------------------ *)
(** ** [_read_data] *)

Lemma check_mask_concat (ys : list (list Q)) :
  check_mask (concat ys) = forallb check_mask ys.
Proof.
  induction ys as [| y ys IH]; [reflexivity |].
  simpl. unfold check_mask at 1. rewrite forallb_app. fold (check_mask y).
  fold (check_mask (concat ys)). rewrite IH. reflexivity.
Qed.

Lemma substring_0_length (n : nat) (p : string) :
  String.length (substring 0 n p) = Nat.min n (String.length p).
Proof.
  revert p; induction n as [| n IH]; intros [| c p]; simpl; try reflexivity.
  f_equal. apply IH.
Qed.

Lemma substring_0_all (n : nat) (p : string) :
  (String.length p <= n)%nat -> substring 0 n p = p.
Proof.
  revert p; induction n as [| n IH]; intros [| c p] H; simpl in *; try reflexivity.
  - lia.
  - f_equal. apply IH. lia.
Qed.

Lemma read_rows_ok (load_truth : string -> list Q) (dir : string) (subjs : list string) :
  forall L U,
  Forall (fun s => check_mask (load_truth (path_join (path_join dir s) "truth.nii.gz"%string))
                   = true) subjs ->
  Forall (fun r => check_mask r = true) L -> Forall (fun r => check_mask r = true) U ->
  length U = length subjs ->
  read_rows load_truth dir subjs (length L) (L ++ U)
  = Done (L ++ map (fun s => load_truth (path_join (path_join dir s) "truth.nii.gz"%string))
                   subjs).
Proof.
  induction subjs as [| s rest IH]; intros L U Hs HL HU Hl.
  - destruct U; [| discriminate Hl]. rewrite !app_nil_r. reflexivity.
  - destruct U as [| u U']; [discriminate Hl |]. injection Hl as Hl.
    inversion Hs as [| ? ? Hv Hs']; subst. inversion HU as [| ? ? _ HU']; subst.
    cbn [read_rows].
    rewrite firstn_app, firstn_all, Nat.sub_diag, app_nil_r.
    rewrite skipn_app, skipn_all2 by lia.
    replace (S (length L) - length L)%nat with 1%nat by lia. cbn [skipn app].
    rewrite check_mask_concat, forallb_app. cbn [forallb].
    rewrite Hv. rewrite (proj2 (forallb_forall check_mask L)), (proj2 (forallb_forall check_mask U')).
    2, 3: apply Forall_forall; assumption.
    cbn [andb].
    replace (L ++ _ :: U') with ((L ++ [load_truth (path_join (path_join dir s) "truth.nii.gz"%string)]) ++ U')
      by (rewrite <- app_assoc; reflexivity).
    replace (S (length L)) with (length (L ++ [load_truth (path_join (path_join dir s) "truth.nii.gz"%string)]))
      by (rewrite length_app; simpl; lia).
    rewrite IH; [| exact Hs' | apply Forall_app; split; [exact HL | repeat constructor; exact Hv]
               | exact HU' | exact Hl].
    rewrite <- app_assoc. reflexivity.
Qed.

Lemma read_rows_bad (load_truth : string -> list Q) (dir : string) (subjs : list string) :
  forall idx y,
  length y = (idx + length subjs)%nat ->
  Exists (fun s => check_mask (load_truth (path_join (path_join dir s) "truth.nii.gz"%string))
                   = false) subjs ->
  read_rows load_truth dir subjs idx y = Throw AssertionError_labels.
Proof.
  induction subjs as [| s rest IH]; intros idx y Hl Hx; [inversion Hx |].
  cbn [read_rows].
  set (v := load_truth (path_join (path_join dir s) "truth.nii.gz"%string)) in *.
  destruct (check_mask (concat (firstn idx y ++ v :: skipn (S idx) y))) eqn:E;
    [| reflexivity].
  apply IH.
  - rewrite length_app, length_firstn. cbn [length]. rewrite length_skipn.
    cbn [length] in Hl. lia.
  - inversion Hx as [? ? Hv | ? ? Hr]; subst; [| exact Hr].
    exfalso. rewrite check_mask_concat, forallb_forall in E.
    fold v in Hv. rewrite (E v) in Hv; [discriminate Hv |].
    apply in_or_app. right. left. reflexivity.
Qed.

(** X16: when every subject's truth volume is binary and the memory that
    [np.empty] hands out holds only [0]/[1] values, [_read_data] (hence
    [get_train_data] and [get_test_data]) returns the subjects' truth
    volumes in the order of [os.listdir], with one image path of at most
    128 characters per subject, and at most three subjects in test mode. *)
Theorem read_data_binary_ok (listdir : string -> list string)
    (load_truth : string -> list Q) (uninit : nat -> list Q)
    (mode : option string) (path dir_name : string) :
  Forall (fun s => check_mask (load_truth (path_join (path_join (path_join path dir_name) s)
                                                     "truth.nii.gz"%string)) = true)
         (subject_dirs listdir mode (path_join path dir_name)) ->
  (forall i, check_mask (uninit i) = true) ->
  exists X, read_data listdir load_truth uninit mode path dir_name =
      Done (X, map (fun s => load_truth (path_join (path_join (path_join path dir_name) s)
                                                   "truth.nii.gz"%string))
                   (subject_dirs listdir mode (path_join path dir_name))) /\
    length X = length (subject_dirs listdir mode (path_join path dir_name)) /\
    Forall (fun p => String.length p <= 128)%nat X /\
    (test_mode mode = true -> length X <= 3)%nat.
Proof.
  intros Hs Hu. unfold read_data.
  set (dir := path_join path dir_name) in *.
  set (subjs := subject_dirs listdir mode dir) in *.
  pose proof (read_rows_ok load_truth dir subjs [] (map uninit (seq 0 (length subjs))) Hs
                (Forall_nil _)) as H.
  rewrite length_map, length_seq in H. cbn [length app] in H. rewrite H.
  2: { apply Forall_forall. intros r Hr. apply in_map_iff in Hr as [i [<- _]]. apply Hu. }
  2: reflexivity.
  eexists. split; [reflexivity |]. split; [| split].
  - apply length_map.
  - apply Forall_forall. intros p Hp. apply in_map_iff in Hp as [s [<- _]].
    unfold to_U128. rewrite substring_0_length. lia.
  - intros Ht. rewrite length_map. unfold subjs, subject_dirs. rewrite Ht.
    rewrite length_firstn. lia.
Qed.

Lemma read_data_binary_ok_witness :
  exists X, read_data (fun _ => ["s01"; "s02"]%string) (fun _ => [0; 1; 1]) (fun _ => [0; 0; 0])
              None "."%string "train"%string =
      Done (X, map (fun s => (fun _ => [0; 1; 1]) (path_join (path_join
                (path_join "."%string "train"%string) s) "truth.nii.gz"%string))
              (subject_dirs (fun _ => ["s01"; "s02"]%string) None
                 (path_join "."%string "train"%string))) /\
    length X = length (subject_dirs (fun _ => ["s01"; "s02"]%string) None
                         (path_join "."%string "train"%string)) /\
    Forall (fun p => String.length p <= 128)%nat X /\
    (test_mode None = true -> length X <= 3)%nat.
Proof.
  apply read_data_binary_ok.
  - repeat apply Forall_cons; try apply Forall_nil; reflexivity.
  - intros i. reflexivity.
Defined.

(** X17: if the truth volume of some subject holds a value outside
    [{0, 1}], [_read_data] fails its assertion. *)
Theorem read_data_rejects_non_binary_truth (listdir : string -> list string)
    (load_truth : string -> list Q) (uninit : nat -> list Q)
    (mode : option string) (path dir_name : string) :
  Exists (fun s => check_mask (load_truth (path_join (path_join (path_join path dir_name) s)
                                                     "truth.nii.gz"%string)) = false)
         (subject_dirs listdir mode (path_join path dir_name)) ->
  read_data listdir load_truth uninit mode path dir_name = Throw AssertionError_labels.
Proof.
  intros Hx. unfold read_data.
  rewrite (read_rows_bad load_truth _ _ 0 _); [reflexivity | | exact Hx].
  rewrite length_map, length_seq. reflexivity.
Qed.

Lemma read_data_rejects_non_binary_truth_witness :
  read_data (fun _ => ["s01"; "s02"]%string)
    (fun p => if String.eqb p "./train/s02/truth.nii.gz"%string then [0; 2] else [0; 1])
    (fun _ => [0; 0]) None "."%string "train"%string = Throw AssertionError_labels.
Proof.
  apply read_data_rejects_non_binary_truth.
  apply Exists_cons_tl. apply Exists_cons_hd. reflexivity.
Defined.

(** X18: the assertion of [_read_data] runs over the whole of [y] at every
    iteration, rows not yet loaded included: with two subjects or more, a
    non-binary value left by [np.empty] in row [1] makes it fail at the
    first iteration, whatever the truth volumes. *)
Theorem read_data_asserts_on_uninitialised_rows (listdir : string -> list string)
    (load_truth : string -> list Q) (uninit : nat -> list Q)
    (mode : option string) (path dir_name : string) :
  (2 <= length (subject_dirs listdir mode (path_join path dir_name)))%nat ->
  check_mask (uninit 1%nat) = false ->
  read_data listdir load_truth uninit mode path dir_name = Throw AssertionError_labels.
Proof.
  intros Hn Hu. unfold read_data.
  destruct (subject_dirs listdir mode (path_join path dir_name)) as [| s0 [| s1 rest]];
    cbn [length] in Hn; [lia | lia |].
  cbn [length seq map read_rows firstn skipn app].
  rewrite check_mask_concat. cbn [forallb]. rewrite Hu.
  rewrite !andb_false_r. reflexivity.
Qed.

Lemma read_data_asserts_on_uninitialised_rows_witness :
  read_data (fun _ => ["s01"; "s02"; "s03"]%string) (fun _ => [0; 1])
    (fun i => if Nat.eqb i 1 then [1; 7] else [0; 0]) None "."%string "train"%string
  = Throw AssertionError_labels.
Proof.
  apply read_data_asserts_on_uninitialised_rows; [apply Nat.leb_le |]; reflexivity.
Defined.

(** X19: the image paths [_read_data] returns are the subjects' T1 paths
    cut to 128 characters: the path itself when it fits, otherwise a
    different string of exactly 128 characters, which [ImageLoader.load]
    would then open. *)
Theorem read_data_paths_truncated (listdir : string -> list string)
    (load_truth : string -> list Q) (uninit : nat -> list Q)
    (mode : option string) (path dir_name : string) X ys :
  read_data listdir load_truth uninit mode path dir_name = Done (X, ys) ->
  Forall2 (fun s x =>
      let p := path_join (path_join (path_join path dir_name) s) "T1.nii.gz"%string in
      (String.length p <= 128 -> x = p) /\
      (128 < String.length p -> x <> p /\ String.length x = 128))%nat
    (subject_dirs listdir mode (path_join path dir_name)) X.
Proof.
  unfold read_data. destruct (read_rows _ _ _ _ _); [| discriminate].
  intros H. injection H as <- _.
  induction (subject_dirs listdir mode (path_join path dir_name)) as [| s l IH];
    constructor; [| exact IH].
  cbv zeta. unfold to_U128. split.
  - apply substring_0_all.
  - intros Hp. split.
    + intros E. apply (f_equal String.length) in E. rewrite substring_0_length in E. lia.
    + rewrite substring_0_length. lia.
Qed.

Lemma read_data_paths_truncated_witness :
  exists X ys,
    read_data (fun _ => ["s01"]%string) (fun _ => [1]) (fun _ => [0]) None
      "."%string "train"%string = Done (X, ys) /\
    Forall2 (fun s x =>
      let p := path_join (path_join (path_join "."%string "train"%string) s)
                 "T1.nii.gz"%string in
      (String.length p <= 128 -> x = p) /\
      (128 < String.length p -> x <> p /\ String.length x = 128))%nat
    (subject_dirs (fun _ => ["s01"]%string) None (path_join "."%string "train"%string)) X.
Proof.
  do 2 eexists. split; [reflexivity |].
  eapply (read_data_paths_truncated (fun _ => ["s01"]%string) (fun _ => [1]) (fun _ => [0]) None
           "."%string "train"%string). reflexivity.
Defined.

(* ------------------------------------------------------------------ *)
(** ** Loading volumes into the estimator's buffers *)

(** X20: a volume of shape [(a, b, c)] with no axis of length 1 fits the
    generators' buffers only when its shape is the estimator's
    [image_size]; so the truth volumes of shape [(193, 229, 193)] that
    [_read_data] stores do not fit the [(197, 233, 189)] buffers of the
    estimator of [get_estimator], and [fit] raises [ValueError] at the
    first batch it loads. *)
Theorem fill_buffer_row_shape_mismatch (xd yd zd a b c : nat) :
  (1 < a)%nat -> (1 < b)%nat -> (1 < c)%nat ->
  (fill_buffer_row (xd, yd, zd) (a, b, c) = None <-> (a, b, c) = (xd, yd, zd)) /\
  fill_buffer_row estimator_image_size (193, 229, 193)%nat = Some ValueError_broadcast.
Proof.
  intros Ha Hb Hc. split; [| reflexivity].
  unfold fill_buffer_row, can_assign. cbn [rev app broadcast_rev].
  rewrite !andb_true_r.
  replace (Nat.eqb a 1) with false by (symmetry; apply Nat.eqb_neq; lia).
  replace (Nat.eqb b 1) with false by (symmetry; apply Nat.eqb_neq; lia).
  replace (Nat.eqb c 1) with false by (symmetry; apply Nat.eqb_neq; lia).
  rewrite !orb_false_r. cbn [Nat.eqb orb andb].
  destruct (Nat.eqb c zd) eqn:E1, (Nat.eqb b yd) eqn:E2, (Nat.eqb a xd) eqn:E3;
    cbn [andb]; rewrite ?Nat.eqb_eq, ?Nat.eqb_neq in *; subst;
    split; intros H; try reflexivity; try discriminate H;
    injection H; intros; lia.
Qed.

Lemma fill_buffer_row_shape_mismatch_witness :
  (fill_buffer_row (193, 229, 193)%nat (193, 229, 193)%nat = None <->
     (193, 229, 193)%nat = (193, 229, 193)%nat) /\
  fill_buffer_row estimator_image_size (193, 229, 193)%nat = Some ValueError_broadcast.
Proof. apply fill_buffer_row_shape_mismatch; lia. Defined.
